(** * The sidecar-injection analyzer

    A shallow embedding of
    [galley/pkg/config/analysis/analyzers/injection/injection.go]:
    the analyzer walks a snapshot of pods and namespaces three times and
    reports diagnostics about the sidecar-injection labels.

    Go maps are finite maps ([gmap]); a lookup of a missing key yields the
    zero value of the element type, the comma-ok form yields the option.
    The closures handed to [ForEach] take the variables they only read as
    arguments and thread the ones they assign to. *)

From stdpp Require Import gmap strings list fin_maps.

(** ** Data of the collaborating packages *)

(** [k8s.io/api/core/v1]: the part of a pod the analyzer reads. The getters
    [GetNamespace], [GetLabels] and [GetAnnotations] read the fields of the
    object metadata. *)
Module v1.

Record Container := { Name : string; Image : string }.

Record PodSpec := { Containers : list Container }.

Record Pod := {
  Namespace : string;
  Labels : gmap string string;
  Annotations : gmap string string;
  Spec : PodSpec
}.

End v1.

(** [pkg/config/resource]. *)
Module resource.

(** Modelled from the spec: the payload of a resource is typed outside this
    file; it is a pod body, or nothing the analyzer looks at (namespaces). *)
Inductive message :=
| Pod (pod : v1.Pod)
| Other.

(** Modelled from the spec: [resource.Metadata], [resource.FullName] and
    its [String] method are declared outside this file; the spec gives the
    accessor as the fully-qualified name, a string, which is what [FullName]
    holds, next to the mapping of label keys to values. *)
Record metadata := {
  FullName : string;
  Labels : gmap string string
}.

(** Modelled from the spec: [resource.Instance], a handle on the metadata
    and the payload. *)
Record Instance := { Metadata : metadata; Message : message }.

(** The type assertion of [r.Message] to a pod: [None] is the run-time
    panic on any other payload. *)
Definition asPod (m : message) : option v1.Pod :=
  match m with
  | Pod pod => Some pod
  | Other => None
  end.

End resource.

(** [pkg/config/schema/collections]. *)
Module collections.

(** Modelled from the spec: the names of the two collections the analyzer
    declares as its inputs. *)
Inductive Name := K8SCoreV1Namespaces | K8SCoreV1Pods.

End collections.

(** [galley/pkg/config/analysis/msg]. *)
Module msg.

(** Modelled from the spec: the constructors of the four diagnostics are
    declared outside this file; a diagnostic is its kind together with the
    positional arguments the analyzer hands over, in order. *)
Inductive Message :=
| NewNamespaceNotInjected
    (r : resource.Instance) (namespace namespace2 : string)
| NewNamespaceMultipleInjectionLabels
    (r : resource.Instance) (namespace namespace2 : string)
| NewNamespaceInvalidInjectorRevision
    (r : resource.Instance) (revision namespace knownRevisions : string)
| NewPodMissingProxy (r : resource.Instance).

End msg.

(** [galley/pkg/config/analysis]: the [Context] interface, a snapshot to
    enumerate and a sink of reports. *)
Module analysis.

(** Modelled from the spec: the snapshot behind a [Context], the resources
    of each kind in the order of enumeration. *)
Record Context := {
  Namespaces : list resource.Instance;
  Pods : list resource.Instance
}.

(** Modelled from the spec: the sink is append-only and ordered by
    emission; an entry is the collection and the diagnostic handed to
    [Report]. *)
Abbreviation Reports := (list (collections.Name * msg.Message)).

Definition Report (col : collections.Name) (m : msg.Message)
    (reports : Reports) : Reports :=
  reports ++ [(col, m)].

Definition collection (c : Context) (col : collections.Name) :
    list resource.Instance :=
  match col with
  | collections.K8SCoreV1Namespaces => Namespaces c
  | collections.K8SCoreV1Pods => Pods c
  end.

(** Modelled from the spec: the enumeration primitive calls the callback on
    every resource of a kind, in snapshot order, until the callback answers
    that it does not want to continue. A panic of the callback ends the
    run. *)
Fixpoint forEach {S : Type} (rs : list resource.Instance)
    (fn : resource.Instance → S → option (bool * S)) (s : S) : option S :=
  match rs with
  | [] => Some s
  | r :: rs' =>
      match fn r s with
      | None => None
      | Some (true, s') => forEach rs' fn s'
      | Some (false, s') => Some s'
      end
  end.

Definition ForEach {S : Type} (c : Context) (col : collections.Name)
    (fn : resource.Instance → S → option (bool * S)) (s : S) : option S :=
  forEach (collection c col) fn s.

End analysis.

Import resource analysis.

(** ** Go library functions *)

(** [m[k]] on a Go map: the zero value when the key is missing. *)
Definition index {V : Type} (zero : V) (m : gmap string V) (k : string) : V :=
  default zero (m !! k).

(** [strings.Join(elems, sep)]. *)
Definition Join (elems : list string) (sep : string) : string :=
  String.concat sep elems.

(** A [for k := range m] loop visits every key of [m] once, in an order the
    language leaves open and that may change from run to run. A run of the
    analyzer is therefore taken relative to the order [order m] in which the
    runtime enumerates the keys; [RangeOrder] says that [order] is one the
    runtime may pick. *)
Definition RangeOrder (order : gmap string bool → list string) : Prop :=
  ∀ m, order m ≡ₚ (map_to_list m).*1.

(** ** Constants *)

Definition InjectionLabelName : string := "istio-injection".
Definition InjectionLabelEnableValue : string := "enabled".
Definition istioProxyName : string := "istio-proxy".

(** Modelled from the spec: [model.RevisionLabel],
    [constants.IstioSystemNamespace] and [annotation.SidecarInject.Name] are
    declared in other packages; their values are the ones the comments of
    the analyzer and the scenarios of the specification use. No result
    below depends on the values. *)
Definition RevisionLabel : string := "istio.io/rev".
Definition RevisionInjectionLabelName : string := RevisionLabel.
Definition IstioSystemNamespace : string := "istio-system".
Definition SidecarInject_Name : string := "sidecar.istio.io/inject".

(** ** The analyzer *)

Definition isControlPlane (pod : v1.Pod) : bool :=
  if decide (v1.Namespace pod ≠ IstioSystemNamespace) then false
  else
    let app := index "" (v1.Labels pod) "app" in
    bool_decide (app = "istiod").

(** The loop over the containers of a pod, left at the first container named
    [istioProxyName]. *)
Fixpoint proxyImageOf (containers : list v1.Container) (proxyImage : string) :
    string :=
  match containers with
  | [] => proxyImage
  | container :: rest =>
      if decide (v1.Name container = istioProxyName) then v1.Image container
      else proxyImageOf rest proxyImage
  end.

Section Analyzer.
(** [util.IsSystemNamespace] and [strings.EqualFold] come from outside
    the file; the analyzer is verified for whatever they compute. *)
Variable IsSystemNamespace : string → bool.
Variable EqualFold : string → string → bool.

(** First pass, the callback gathering the revisions of the control
    plane. It assigns to [controlPlaneRevisions]. *)
Definition Analyze_func1 (r : Instance)
    (controlPlaneRevisions : gmap string bool) :
    option (bool * gmap string bool) :=
  pod ← asPod (Message r);
  if isControlPlane pod then
    match Labels (Metadata r) !! RevisionLabel with
    | Some revision => Some (true, <[revision := true]> controlPlaneRevisions)
    | None => Some (true, controlPlaneRevisions)
    end
  else Some (true, controlPlaneRevisions).

(** The [range] loop that copies the keys into the slice [revisions]. *)
Definition rangeAppend (keys : list string) : list string :=
  foldl (λ revisions revision, revisions ++ [revision]) [] keys.

(** Second pass, the callback on namespaces. It reads
    [controlPlaneRevisions] and [revisions], assigns to
    [injectedNamespaces] and reports. *)
Definition Analyze_func2 (controlPlaneRevisions : gmap string bool)
    (revisions : list string) (r : Instance)
    (s : gmap string bool * Reports) :
    option (bool * (gmap string bool * Reports)) :=
  let '(injectedNamespaces, reports) := s in
  let ns := FullName (Metadata r) in
  if IsSystemNamespace ns then Some (true, s)
  else
    let injectionLabel := index "" (Labels (Metadata r)) InjectionLabelName in
    let newInjectionLabel :=
      index "" (Labels (Metadata r)) RevisionInjectionLabelName in
    let okNewInjectionLabel :=
      bool_decide (is_Some (Labels (Metadata r) !! RevisionInjectionLabelName)) in
    let inject :=
      Some (true, (<[FullName (Metadata r) := true]> injectedNamespaces, reports)) in
    if bool_decide (injectionLabel = "") && negb okNewInjectionLabel then
      Some (true, (injectedNamespaces,
        Report collections.K8SCoreV1Namespaces
          (msg.NewNamespaceNotInjected r
             (FullName (Metadata r)) (FullName (Metadata r)))
          reports))
    else if okNewInjectionLabel then
      if negb (bool_decide (injectionLabel = "")) then
        Some (true, (injectedNamespaces,
          Report collections.K8SCoreV1Namespaces
            (msg.NewNamespaceMultipleInjectionLabels r
               (FullName (Metadata r)) (FullName (Metadata r)))
            reports))
      else if negb (bool_decide (is_Some (controlPlaneRevisions !! newInjectionLabel))) then
        Some (true, (injectedNamespaces,
          Report collections.K8SCoreV1Namespaces
            (msg.NewNamespaceInvalidInjectorRevision r
               newInjectionLabel (FullName (Metadata r))
               (Join revisions ", "))
            reports))
      else inject
    else if negb (bool_decide (injectionLabel = InjectionLabelEnableValue)) then
      Some (true, s)
    else inject.

(** Third pass, the callback on pods. It reads [injectedNamespaces] and
    reports. *)
Definition Analyze_func3 (injectedNamespaces : gmap string bool)
    (r : Instance) (reports : Reports) : option (bool * Reports) :=
  pod ← asPod (Message r);
  if negb (index false injectedNamespaces (v1.Namespace pod)) then
    Some (true, reports)
  else
    let val := index "" (v1.Annotations pod) SidecarInject_Name in
    if EqualFold val "false" then Some (true, reports)
    else
      let proxyImage := proxyImageOf (v1.Containers (v1.Spec pod)) "" in
      if bool_decide (proxyImage = "") then
        Some (true,
          Report collections.K8SCoreV1Pods (msg.NewPodMissingProxy r) reports)
      else Some (true, reports).

(** [Analyze], for the enumeration order [order] of the [range] loop. The
    result is the sequence of reports, or [None] when the run panics. *)
Definition Analyze (order : gmap string bool → list string) (c : Context) :
    option Reports :=
  controlPlaneRevisions ←
    ForEach c collections.K8SCoreV1Pods Analyze_func1 ∅;
  let revisions := rangeAppend (order controlPlaneRevisions) in
  '(injectedNamespaces, reports) ←
    ForEach c collections.K8SCoreV1Namespaces
      (Analyze_func2 controlPlaneRevisions revisions) (∅, []);
  ForEach c collections.K8SCoreV1Pods
    (Analyze_func3 injectedNamespaces) reports.

End Analyzer.

Arguments Analyze_func2 IsSystemNamespace controlPlaneRevisions revisions r s :
  simpl never.

(** ** A concrete environment for the examples *)

(** An instance of the system-namespace predicate: the namespaces of the
    cluster itself. *)
Definition kubeNamespaces (ns : string) : bool :=
  bool_decide (ns = "kube-system" ∨ ns = "kube-public").

(** [strings.EqualFold] on ASCII strings only: two bytes are equal under
    folding when they agree after the letters A to Z are mapped to lower
    case. Go folds Unicode (the long s, U+017F, equals s there); the
    examples use this instance on ASCII or absent annotations, and every
    general result is for an arbitrary [EqualFold]. *)
Definition toLowerASCII (a : Ascii.ascii) : Ascii.ascii :=
  let n := Ascii.nat_of_ascii a in
  if (65 <=? n)%nat && (n <=? 90)%nat then Ascii.ascii_of_nat (n + 32) else a.

Fixpoint EqualFoldASCII (s t : string) : bool :=
  match s, t with
  | EmptyString, EmptyString => true
  | String a s', String b t' =>
      Ascii.eqb (toLowerASCII a) (toLowerASCII b) && EqualFoldASCII s' t'
  | _, _ => false
  end.

(** The two orders in which a map of at most two keys can be enumerated. *)
Definition ascending (m : gmap string bool) : list string := (map_to_list m).*1.
Definition descending (m : gmap string bool) : list string :=
  reverse (map_to_list m).*1.

(** A namespace resource and a pod resource; the labels of a pod resource
    are the labels of the pod. *)
Definition namespaceResource (name : string) (labels : list (string * string)) :
    Instance :=
  {| Metadata := {| FullName := name; Labels := list_to_map labels |};
     Message := Other |}.

Definition podResource (ns name : string) (labels annotations : list (string * string))
    (containers : list v1.Container) : Instance :=
  {| Metadata := {| FullName := ns +:+ "/" +:+ name;
                    Labels := list_to_map labels |};
     Message := Pod {| v1.Namespace := ns;
                       v1.Labels := list_to_map labels;
                       v1.Annotations := list_to_map annotations;
                       v1.Spec := {| v1.Containers := containers |} |} |}.

Definition istiod (revision : string) : Instance :=
  podResource "istio-system" ("istiod-" +:+ revision)
    [("app", "istiod"); ("istio.io/rev", revision)] []
    [{| v1.Name := "discovery"; v1.Image := "pilot" |}].

Definition analyze := Analyze kubeNamespaces EqualFoldASCII.

(** Snapshots and resources of the examples. *)
Definition proxy (image : string) : v1.Container :=
  {| v1.Name := "istio-proxy"; v1.Image := image |}.

Definition canaryPlane : Context :=
  {| Namespaces := [namespaceResource "ns1" [("istio.io/rev", "canary")]];
     Pods := [istiod "canary"; podResource "ns1" "app" [] [] [proxy "proxyv2"]] |}.

Definition requestsUnknown : Instance := namespaceResource "ns" [("istio.io/rev", "c")].

Definition twoRevisions : Context :=
  {| Namespaces := [requestsUnknown]; Pods := [istiod "a"; istiod "b"] |}.

Definition emptyLegacyWithRevision : Instance :=
  namespaceResource "ns" [("istio-injection", ""); ("istio.io/rev", "canary")].

Definition emptyLegacy : Instance := namespaceResource "ns" [("istio-injection", "")].

Definition bothLabels : Instance :=
  namespaceResource "ns" [("istio-injection", "enabled"); ("istio.io/rev", "canary")].

Definition disabled : Instance := namespaceResource "ns" [("istio-injection", "disabled")].

Definition unlabelled : Instance := namespaceResource "ns2" [].

Definition kubeSystem : Instance :=
  namespaceResource "kube-system" [("istio-injection", "enabled")].

Definition twoProxies : Instance :=
  podResource "ns4" "app" [] [] [proxy ""; proxy "proxyv2"].

Definition twoProxiesInjected : Context :=
  {| Namespaces := [namespaceResource "ns4" [("istio-injection", "enabled")]];
     Pods := [twoProxies] |}.

(** ** Notions the statements use *)

(** The revisions of the control plane in the order in which the first pass
    meets them, each listed once. *)
Definition discover (seen : list string) (r : Instance) : list string :=
  match asPod (Message r) with
  | Some pod =>
      if isControlPlane pod then
        match Labels (Metadata r) !! RevisionLabel with
        | Some revision =>
            if decide (revision ∈ seen) then seen else seen ++ [revision]
        | None => seen
        end
      else seen
  | None => seen
  end.

Definition discoveryOrder (pods : list Instance) : list string :=
  foldl discover [] pods.

(** The five ways in which the second pass can leave a namespace, and what
    each does to the injected set and to the reports. *)
Inductive Outcome :=
| NotInjectedByAbsence
| MultipleLabelConflict
| InvalidRevision
| Enabled
| ExplicitlyDisabled.

Definition outcomeEffect (revisions : list string) (r : Instance) (o : Outcome)
    (s : gmap string bool * Reports) : gmap string bool * Reports :=
  let name := FullName (Metadata r) in
  let report m := (s.1, s.2 ++ [(collections.K8SCoreV1Namespaces, m)]) in
  match o with
  | NotInjectedByAbsence => report (msg.NewNamespaceNotInjected r name name)
  | MultipleLabelConflict =>
      report (msg.NewNamespaceMultipleInjectionLabels r name name)
  | InvalidRevision =>
      report (msg.NewNamespaceInvalidInjectorRevision r
                (index "" (Labels (Metadata r)) RevisionLabel) name
                (Join revisions ", "))
  | Enabled => (<[name := true]> s.1, s.2)
  | ExplicitlyDisabled => s
  end.

(** A diagnostic with the list of known revisions left out. *)
Definition forgetKnown (rep : collections.Name * msg.Message) :
    collections.Name * msg.Message :=
  match rep with
  | (col, msg.NewNamespaceInvalidInjectorRevision r revision ns _) =>
      (col, msg.NewNamespaceInvalidInjectorRevision r revision ns "")
  | _ => rep
  end.

(** The reports of a run with the lists of known revisions left out. *)
Definition forgetKnownAll (result : option (Reports)) :
    option Reports :=
  match result with
  | Some reports => Some (forgetKnown <$> reports)
  | None => None
  end.

(** Two reports that agree, or that are the same invalid-revision report
    but for the order in which the known revisions [revisions] are joined. *)
Definition sameUpToKnownOrder (revisions : list string)
    (rep1 rep2 : collections.Name * msg.Message) : Prop :=
  rep1 = rep2 ∨
  ∃ r revision ns known1 known2,
    known1 ≡ₚ revisions ∧ known2 ≡ₚ revisions ∧
    rep1 = (collections.K8SCoreV1Namespaces,
            msg.NewNamespaceInvalidInjectorRevision r revision ns
              (Join known1 ", ")) ∧
    rep2 = (collections.K8SCoreV1Namespaces,
            msg.NewNamespaceInvalidInjectorRevision r revision ns
              (Join known2 ", ")).

(** The resources of the pod collection carry pods. *)
Definition podsWellTyped (c : Context) : Prop :=
  Forall (λ r, is_Some (asPod (Message r))) (Pods c).

(** A callback that never asks the enumeration to stop. *)
Definition continues {S : Type} (fn : Instance → S → option (bool * S)) : Prop :=
  ∀ r s b s', fn r s = Some (b, s') → b = true.

(** ** The declaration of the analyzer *)

Module Analyzer.

(** Modelled from the spec: [analysis.Metadata] is declared outside this
    file; the analyzer registers a name, a description and the kinds of
    resources it requires. *)
Record metadata := {
  Name : string;
  Description : string;
  Inputs : list collections.Name
}.

(** [Metadata]. *)
Definition Metadata : metadata :=
  {| Name := "injection.Analyzer";
     Description := "Checks conditions related to Istio sidecar injection";
     Inputs := [collections.K8SCoreV1Namespaces; collections.K8SCoreV1Pods] |}.

End Analyzer.

(** ** What a visit contributes *)

(** The reports the second callback makes for a namespace and whether it
    adds the namespace to the injected set, read off a visit that starts
    from an empty accumulator; likewise the reports of the third callback
    for a pod. *)
Definition namespaceReports (IsSystemNamespace : string → bool)
    (controlPlaneRevisions : gmap string bool) (revisions : list string)
    (r : Instance) : Reports :=
  match Analyze_func2 IsSystemNamespace controlPlaneRevisions revisions r (∅, [])
  with
  | Some (_, (_, reports)) => reports
  | None => []
  end.

Definition namespaceInjected (IsSystemNamespace : string → bool)
    (controlPlaneRevisions : gmap string bool) (r : Instance) : bool :=
  match Analyze_func2 IsSystemNamespace controlPlaneRevisions [] r (∅, []) with
  | Some (_, (injectedNamespaces, _)) =>
      bool_decide (is_Some (injectedNamespaces !! FullName (Metadata r)))
  | None => false
  end.

Definition podReports (EqualFold : string → string → bool)
    (injectedNamespaces : gmap string bool) (r : Instance) : Reports :=
  match Analyze_func3 EqualFold injectedNamespaces r [] with
  | Some (_, reports) => reports
  | None => []
  end.

(** The injected set after the namespaces [namespaces] have been visited,
    starting from [injectedNamespaces]. *)
Definition injectedAfter (IsSystemNamespace : string → bool)
    (controlPlaneRevisions : gmap string bool)
    (namespaces : list Instance) (injectedNamespaces : gmap string bool) :
    gmap string bool :=
  foldl (λ injected r,
    if namespaceInjected IsSystemNamespace controlPlaneRevisions r
    then <[FullName (Metadata r) := true]> injected else injected)
    injectedNamespaces namespaces.

(** Snapshots of the further examples. *)
Definition sharedRevision : Context :=
  {| Namespaces := [requestsUnknown; unlabelled;
                    namespaceResource "ns1" [("istio.io/rev", "canary")]];
     Pods := [istiod "canary"; istiod "canary";
              podResource "ns1" "app" [] [] [];
              podResource "kube-system" "dns" [] [] [];
              podResource "elsewhere" "job" [] [] []] |}.

Definition sharedRevisionReports : Reports :=
  [(collections.K8SCoreV1Namespaces,
    msg.NewNamespaceInvalidInjectorRevision requestsUnknown "c" "ns" "canary");
   (collections.K8SCoreV1Namespaces,
    msg.NewNamespaceNotInjected unlabelled "ns2" "ns2");
   (collections.K8SCoreV1Pods,
    msg.NewPodMissingProxy (podResource "ns1" "app" [] [] []))].

Definition sharedRevisionReversed : Context :=
  {| Namespaces := Namespaces sharedRevision;
     Pods := reverse (Pods sharedRevision) |}.

Definition sharedRevisionShuffled : Context :=
  {| Namespaces := [namespaceResource "ns1" [("istio.io/rev", "canary")];
                    requestsUnknown; unlabelled];
     Pods := Pods sharedRevision |}.

Definition noControlPlane : Context :=
  {| Namespaces := [requestsUnknown];
     Pods := [podResource "istio-system" "istiod-x" [("app", "istiod")] [] [];
              podResource "ns" "istiod-y"
                [("app", "istiod"); ("istio.io/rev", "c")] [] []] |}.

(** Decides the tests that remain once the labels of a row are known. *)
Ltac row :=
  simpl; repeat (case_bool_decide; simpl);
  first [done | exfalso; naive_solver].

(** ** The enumeration *)

Lemma forEach_cons {S : Type} (fn : Instance → S → option (bool * S)) r rs s s' :
  fn r s = Some (true, s') → forEach (r :: rs) fn s = forEach rs fn s'.
Proof. intros H. simpl. by rewrite H. Qed.

Lemma forEach_app {S : Type} (fn : Instance → S → option (bool * S)) rs1 rs2 s :
  continues fn →
  forEach (rs1 ++ rs2) fn s = forEach rs1 fn s ≫= forEach rs2 fn.
Proof.
  intros Hc. revert s. induction rs1 as [|r rs1 IH]; intros s; [done|].
  simpl. destruct (fn r s) as [[b s']|] eqn:E; [|done].
  rewrite (Hc _ _ _ _ E). apply IH.
Qed.

(** An invariant of the threaded state that every call of the callback
    keeps holds at the end of the enumeration. *)
Lemma forEach_invariant {S : Type} (fn : Instance → S → option (bool * S))
    (I : S → Prop) rs s s' :
  (∀ r s b s', r ∈ rs → I s → fn r s = Some (b, s') → I s') →
  I s → forEach rs fn s = Some s' → I s'.
Proof.
  revert s. induction rs as [|r rs IH]; intros s Hstep Hs Hrun.
  - simpl in Hrun. by simplify_eq.
  - simpl in Hrun. destruct (fn r s) as [[[] s1]|] eqn:E; [| |done].
    + apply (IH s1); [|by eapply Hstep; [left| |]|done].
      intros r0 s0 b0 s0' Hin. apply Hstep. by right.
    + simplify_eq. eapply Hstep; [left|done|done].
Qed.

(** ** First pass *)

Lemma rangeAppend_id keys : rangeAppend keys = keys.
Proof.
  unfold rangeAppend.
  cut (∀ acc : list string,
    foldl (λ revisions revision, revisions ++ [revision]) acc keys = acc ++ keys);
    [intros H; apply H|].
  induction keys as [|k keys IH]; intros acc; simpl.
  - by rewrite app_nil_r.
  - rewrite IH. by rewrite <- app_assoc.
Qed.

Lemma Analyze_func1_continues : continues Analyze_func1.
Proof.
  intros r m b m' H. unfold Analyze_func1 in H.
  destruct (asPod (Message r)) as [pod|]; simpl in H; [|done].
  destruct (isControlPlane pod); [destruct (Labels (Metadata r) !! RevisionLabel)|];
    by simplify_eq.
Qed.

Lemma isControlPlane_spec pod :
  isControlPlane pod = true ↔
  v1.Namespace pod = IstioSystemNamespace ∧ v1.Labels pod !! "app" = Some "istiod".
Proof.
  unfold isControlPlane, index. destruct (decide _) as [Hne|Heq].
  - split; [done|]. intros [? _]. done.
  - apply dec_stable in Heq. rewrite bool_decide_eq_true.
    destruct (v1.Labels pod !! "app") as [app|]; simpl; split.
    + intros ->. done.
    + intros [_ ?]. by simplify_eq.
    + done.
    + intros [_ ?]. done.
Qed.

(** What one call of the first callback does. *)
Lemma Analyze_func1_step r pod m :
  Message r = Pod pod →
  Analyze_func1 r m =
    Some (true,
      if isControlPlane pod then
        match Labels (Metadata r) !! RevisionLabel with
        | Some revision => <[revision := true]> m
        | None => m
        end
      else m).
Proof.
  intros Hm. unfold Analyze_func1. rewrite Hm. simpl.
  destruct (isControlPlane pod); [|done].
  by destruct (Labels (Metadata r) !! RevisionLabel).
Qed.

Lemma first_pass_total pods m :
  Forall (λ r, is_Some (asPod (Message r))) pods →
  is_Some (forEach pods Analyze_func1 m).
Proof.
  intros Hty. revert m. induction Hty as [|r pods [pod Hr] _ IH]; intros m.
  - by eexists.
  - destruct (Message r) as [pod'|] eqn:Hm; [|done].
    erewrite forEach_cons; [apply IH|]. by apply Analyze_func1_step.
Qed.

(** The keys after the first pass are the keys before it and the revision
    labels of the control-plane pods. *)
Lemma first_pass_dom pods m m' revision :
  forEach pods Analyze_func1 m = Some m' →
  revision ∈ dom m' ↔
    revision ∈ dom m ∨
    ∃ r pod, r ∈ pods ∧ Message r = Pod pod ∧ isControlPlane pod = true ∧
      Labels (Metadata r) !! RevisionLabel = Some revision.
Proof.
  revert m. induction pods as [|r pods IH]; intros m Hrun.
  - simpl in Hrun. simplify_eq. split; [by left|].
    intros [?|(r & pod & Hin & _)]; [done|]. by apply elem_of_nil in Hin.
  - destruct (Message r) as [pod|] eqn:Hm;
      [|by unfold forEach, Analyze_func1 in Hrun; rewrite Hm in Hrun].
    rewrite (forEach_cons _ _ _ _ _ (Analyze_func1_step r pod m Hm)) in Hrun.
    rewrite (IH _ Hrun). clear IH Hrun. split.
    + intros [Hd|(r' & pod' & Hin & ?)].
      * destruct (isControlPlane pod) eqn:Hcp; [|by left].
        destruct (Labels (Metadata r) !! RevisionLabel) as [rev|] eqn:Hrev;
          [|by left].
        apply elem_of_dom in Hd. destruct (decide (rev = revision)) as [->|Hne].
        -- right. exists r, pod. split; [left|done].
        -- rewrite lookup_insert_ne in Hd by done. left. by apply elem_of_dom.
      * right. exists r', pod'. split; [by right|done].
    + intros [Hd|(r' & pod' & Hin & Hm' & Hcp & Hrev)].
      * left. destruct (isControlPlane pod); [|done].
        destruct (Labels (Metadata r) !! RevisionLabel) as [rev|]; [|done].
        rewrite dom_insert_L. set_solver.
      * apply elem_of_cons in Hin as [->|Hin].
        -- left. rewrite Hm in Hm'. simplify_eq. rewrite Hcp, Hrev.
           rewrite dom_insert_L. set_solver.
        -- right. by exists r', pod'.
Qed.

(** The discovery order lists the keys of the first pass, each once. *)
Lemma first_pass_discover pods m m' seen :
  forEach pods Analyze_func1 m = Some m' →
  NoDup seen → (∀ k, k ∈ seen ↔ k ∈ dom m) →
  NoDup (foldl discover seen pods) ∧
  ∀ k, k ∈ foldl discover seen pods ↔ k ∈ dom m'.
Proof.
  revert m seen. induction pods as [|r pods IH]; intros m seen Hrun Hnd Hseen.
  - simpl in *. by simplify_eq.
  - destruct (Message r) as [pod|] eqn:Hm;
      [|by unfold forEach, Analyze_func1 in Hrun; rewrite Hm in Hrun].
    rewrite (forEach_cons _ _ _ _ _ (Analyze_func1_step r pod m Hm)) in Hrun.
    simpl. apply (IH _ _ Hrun); unfold discover; rewrite Hm; simpl;
      destruct (isControlPlane pod); try done;
      destruct (Labels (Metadata r) !! RevisionLabel) as [rev|]; try done;
      destruct (decide (rev ∈ seen)) as [Hin|Hnin].
    + done.
    + apply NoDup_app. split_and!; [done| |apply NoDup_singleton].
      intros x Hx ->%list_elem_of_singleton. done.
    + intros k. rewrite dom_insert_L, elem_of_union, elem_of_singleton, Hseen.
      apply Hseen in Hin. intuition (subst; auto).
    + intros k. rewrite dom_insert_L, elem_of_app, elem_of_union,
        elem_of_singleton, list_elem_of_singleton, Hseen. tauto.
Qed.

(** Whatever order the runtime picks, the slice [revisions] is a
    rearrangement of the discovery order. *)
Lemma revisions_discovered order pods m :
  RangeOrder order →
  forEach pods Analyze_func1 ∅ = Some m →
  rangeAppend (order m) ≡ₚ discoveryOrder pods.
Proof.
  intros Hord Hrun. rewrite rangeAppend_id, (Hord m).
  destruct (first_pass_discover pods ∅ m [] Hrun) as [Hnd Hel].
  { apply NoDup_nil_2. }
  { intros k. rewrite dom_empty_L. set_solver. }
  apply NoDup_Permutation; [apply NoDup_fst_map_to_list|done|].
  intros k. unfold discoveryOrder. rewrite Hel, elem_of_dom.
  rewrite list_elem_of_fmap. split.
  - intros [[k' v] [-> Hin]]. apply elem_of_map_to_list in Hin. by eexists.
  - intros [v Hv]. exists (k, v). split; [done|]. by apply elem_of_map_to_list.
Qed.

(** ** Second pass: the decision table of the callback *)

Section SecondPass.
Variable IsSystemNamespace : string → bool.
Variable controlPlaneRevisions : gmap string bool.

Implicit Types (revisions : list string).

Implicit Types (r : Instance) (s : gmap string bool * Reports).

Lemma func2_system revisions r s :
  IsSystemNamespace (FullName (Metadata r)) = true →
  Analyze_func2 IsSystemNamespace controlPlaneRevisions revisions r s = Some (true, s).
Proof. intros H. unfold Analyze_func2. destruct s. by rewrite H. Qed.

Lemma func2_absent revisions r s :
  IsSystemNamespace (FullName (Metadata r)) = false →
  index "" (Labels (Metadata r)) InjectionLabelName = "" →
  Labels (Metadata r) !! RevisionLabel = None →
  Analyze_func2 IsSystemNamespace controlPlaneRevisions revisions r s = Some (true, outcomeEffect revisions r NotInjectedByAbsence s).
Proof.
  intros Hsys Hleg Hrev. unfold Analyze_func2, RevisionInjectionLabelName.
  destruct s as [inj reps]. cbv zeta. rewrite Hsys, Hleg, Hrev. row.
Qed.

Lemma func2_conflict revisions r s revision :
  IsSystemNamespace (FullName (Metadata r)) = false →
  index "" (Labels (Metadata r)) InjectionLabelName ≠ "" →
  Labels (Metadata r) !! RevisionLabel = Some revision →
  Analyze_func2 IsSystemNamespace controlPlaneRevisions revisions r s = Some (true, outcomeEffect revisions r MultipleLabelConflict s).
Proof.
  intros Hsys Hleg Hrev. unfold Analyze_func2, RevisionInjectionLabelName.
  destruct s as [inj reps]. cbv zeta. rewrite Hsys, Hrev. row.
Qed.

Lemma func2_invalid revisions r s revision :
  IsSystemNamespace (FullName (Metadata r)) = false →
  index "" (Labels (Metadata r)) InjectionLabelName = "" →
  Labels (Metadata r) !! RevisionLabel = Some revision →
  controlPlaneRevisions !! revision = None →
  Analyze_func2 IsSystemNamespace controlPlaneRevisions revisions r s = Some (true, outcomeEffect revisions r InvalidRevision s).
Proof.
  intros Hsys Hleg Hrev Hcp. unfold Analyze_func2, RevisionInjectionLabelName.
  destruct s as [inj reps]. cbv zeta. rewrite Hsys, Hleg. simpl.
  unfold index. rewrite Hrev. simpl. rewrite Hcp. row.
Qed.

Lemma func2_valid revisions r s revision :
  IsSystemNamespace (FullName (Metadata r)) = false →
  index "" (Labels (Metadata r)) InjectionLabelName = "" →
  Labels (Metadata r) !! RevisionLabel = Some revision →
  is_Some (controlPlaneRevisions !! revision) →
  Analyze_func2 IsSystemNamespace controlPlaneRevisions revisions r s = Some (true, outcomeEffect revisions r Enabled s).
Proof.
  intros Hsys Hleg Hrev Hcp. unfold Analyze_func2, RevisionInjectionLabelName.
  destruct s as [inj reps]. cbv zeta. rewrite Hsys, Hleg. unfold index.
  rewrite Hrev. row.
Qed.

Lemma func2_enabled revisions r s :
  IsSystemNamespace (FullName (Metadata r)) = false →
  Labels (Metadata r) !! InjectionLabelName = Some InjectionLabelEnableValue →
  Labels (Metadata r) !! RevisionLabel = None →
  Analyze_func2 IsSystemNamespace controlPlaneRevisions revisions r s = Some (true, outcomeEffect revisions r Enabled s).
Proof.
  intros Hsys Hleg Hrev. unfold Analyze_func2, RevisionInjectionLabelName, index.
  destruct s as [inj reps]. cbv zeta. rewrite Hsys, Hleg, Hrev. row.
Qed.

Lemma func2_disabled revisions r s :
  IsSystemNamespace (FullName (Metadata r)) = false →
  index "" (Labels (Metadata r)) InjectionLabelName ≠ "" →
  index "" (Labels (Metadata r)) InjectionLabelName ≠ InjectionLabelEnableValue →
  Labels (Metadata r) !! RevisionLabel = None →
  Analyze_func2 IsSystemNamespace controlPlaneRevisions revisions r s = Some (true, outcomeEffect revisions r ExplicitlyDisabled s).
Proof.
  intros Hsys Hleg Hen Hrev. unfold Analyze_func2, RevisionInjectionLabelName.
  destruct s as [inj reps]. cbv zeta. rewrite Hsys, Hrev. row.
Qed.

(** Every namespace outside the system namespaces takes one row of the
    table. *)
Lemma func2_outcome r :
  IsSystemNamespace (FullName (Metadata r)) = false →
  ∃ o, ∀ revisions s,
    Analyze_func2 IsSystemNamespace controlPlaneRevisions revisions r s = Some (true, outcomeEffect revisions r o s).
Proof.
  intros Hsys.
  destruct (decide (index "" (Labels (Metadata r)) InjectionLabelName = ""))
    as [Hleg|Hleg];
    destruct (Labels (Metadata r) !! RevisionLabel) as [revision|] eqn:Hrev.
  - destruct (controlPlaneRevisions !! revision) as [b|] eqn:Hcp.
    + exists Enabled. intros revisions s. by eapply func2_valid.
    + exists InvalidRevision. intros revisions s. by eapply func2_invalid.
  - exists NotInjectedByAbsence. intros revisions s. by apply func2_absent.
  - exists MultipleLabelConflict. intros revisions s. by eapply func2_conflict.
  - destruct (decide (index "" (Labels (Metadata r)) InjectionLabelName
                      = InjectionLabelEnableValue)) as [Hen|Hen].
    + exists Enabled. intros revisions s. apply func2_enabled; [done| |done].
      unfold index in Hen, Hleg.
      destruct (Labels (Metadata r) !! InjectionLabelName); simpl in *;
        by simplify_eq.
    + exists ExplicitlyDisabled. intros revisions s. by apply func2_disabled.
Qed.

Lemma func2_continues revisions : continues (Analyze_func2 IsSystemNamespace controlPlaneRevisions revisions).
Proof.
  intros r s b s' H.
  destruct (IsSystemNamespace (FullName (Metadata r))) eqn:Hsys.
  - rewrite func2_system in H by done. by simplify_eq.
  - destruct (func2_outcome r Hsys) as [o Ho]. rewrite Ho in H. by simplify_eq.
Qed.

(** A call only ever touches the entry of the namespace it visits. *)
Lemma func2_frame revisions r s b s' name :
  Analyze_func2 IsSystemNamespace controlPlaneRevisions revisions r s = Some (b, s') → name ≠ FullName (Metadata r) →
  s'.1 !! name = s.1 !! name.
Proof.
  intros H Hne.
  destruct (IsSystemNamespace (FullName (Metadata r))) eqn:Hsys.
  - rewrite func2_system in H by done. by simplify_eq.
  - destruct (func2_outcome r Hsys) as [o Ho]. rewrite Ho in H. simplify_eq.
    destruct o; simpl; try done. by rewrite lookup_insert_ne.
Qed.

End SecondPass.

(** A namespace that the callback never adds stays out of the injected set
    of the whole pass, unless another resource bears its name. *)
Lemma second_pass_absent IsSystemNamespace controlPlaneRevisions revisions
    namespaces r s s' :
  (∀ s0, (Analyze_func2 IsSystemNamespace controlPlaneRevisions revisions r s0
            ≫= λ bs, Some bs.2.1) = Some s0.1) →
  (∀ r', r' ∈ namespaces → FullName (Metadata r') = FullName (Metadata r) → r' = r) →
  forEach namespaces
    (Analyze_func2 IsSystemNamespace controlPlaneRevisions revisions) s = Some s' →
  s.1 !! FullName (Metadata r) = None →
  s'.1 !! FullName (Metadata r) = None.
Proof.
  intros Hkeep. revert s. induction namespaces as [|r' rs IH]; intros s Huniq Hrun Hs.
  - simpl in Hrun. by simplify_eq.
  - simpl in Hrun.
    destruct (Analyze_func2 _ _ _ r' s) as [[b s1]|] eqn:E; [|done].
    pose proof (func2_continues _ _ _ _ _ _ _ E) as ->.
    apply (IH s1); [intros r0 Hin; apply Huniq; by right|done|].
    destruct (decide (FullName (Metadata r') = FullName (Metadata r))) as [Heq|Hne].
    + assert (r' = r) as -> by (apply Huniq; [left|done]).
      specialize (Hkeep s). rewrite E in Hkeep. simpl in Hkeep.
      injection Hkeep as ->. done.
    + rewrite <- Hs. eapply func2_frame; [done|]. congruence.
Qed.

(** ** Third pass *)

Section ThirdPass.
Variable EqualFold : string → string → bool.
Variable injectedNamespaces : gmap string bool.

Lemma func3_step r pod reports :
  Message r = Pod pod →
  Analyze_func3 EqualFold injectedNamespaces r reports =
    Some (true,
      if negb (index false injectedNamespaces (v1.Namespace pod)) then reports
      else if EqualFold (index "" (v1.Annotations pod) SidecarInject_Name) "false"
      then reports
      else if bool_decide (proxyImageOf (v1.Containers (v1.Spec pod)) "" = "")
      then reports ++ [(collections.K8SCoreV1Pods, msg.NewPodMissingProxy r)]
      else reports).
Proof.
  intros Hm. unfold Analyze_func3. rewrite Hm. simpl.
  destruct (negb _); [done|]. destruct (EqualFold _ _); [done|].
  by destruct (bool_decide _).
Qed.

(** The reports of a call are appended to the ones before it. *)
Lemma func3_append r reports :
  Analyze_func3 EqualFold injectedNamespaces r reports = Analyze_func3 EqualFold injectedNamespaces r [] ≫= λ bs, Some (bs.1, reports ++ bs.2).
Proof.
  destruct (Message r) as [pod|] eqn:Hm.
  - rewrite !(func3_step r pod) by done. simpl.
    destruct (negb _); [by rewrite app_nil_r|].
    destruct (EqualFold _ _); [by rewrite app_nil_r|].
    destruct (bool_decide _); [done|by rewrite app_nil_r].
  - unfold Analyze_func3. by rewrite Hm.
Qed.

End ThirdPass.

(** The image the loop ends with is the image of the first container named
    [istioProxyName], if there is one. *)
Lemma proxyImageOf_first containers :
  proxyImageOf containers "" ≠ "" ↔
  ∃ before container after,
    containers = before ++ container :: after ∧
    Forall (λ c, v1.Name c ≠ istioProxyName) before ∧
    v1.Name container = istioProxyName ∧ v1.Image container ≠ "".
Proof.
  induction containers as [|c cs IH]; simpl.
  - split; [done|]. intros (before & ? & ? & Heq & _). by destruct before.
  - destruct (decide (v1.Name c = istioProxyName)) as [Hc|Hc]; split.
    + intros Himg. exists [], c, cs. by split_and!.
    + intros (before & c' & after & Heq & Hbefore & Hname & Himg).
      destruct before as [|c0 before]; simpl in Heq; simplify_eq; [done|].
      by apply Forall_cons in Hbefore as [? _].
    + intros (before & c' & after & -> & Hbefore & Hname & Himg)%IH.
      exists (c :: before), c', after. split_and!; [done| |done|done].
      by apply Forall_cons.
    + intros (before & c' & after & Heq & Hbefore & Hname & Himg).
      destruct before as [|c0 before]; simpl in Heq; simplify_eq.
      apply IH. exists before, c', after. split_and!; [done| |done|done].
      by apply Forall_cons in Hbefore as [_ ?].
Qed.

(** When the names of the containers are distinct, the first container
    named [istioProxyName] is the only one. *)
Lemma proxyImageOf_unique containers :
  NoDup (v1.Name <$> containers) →
  proxyImageOf containers "" ≠ "" ↔
  ∃ container, container ∈ containers ∧
    v1.Name container = istioProxyName ∧ v1.Image container ≠ "".
Proof.
  intros Hnd. rewrite proxyImageOf_first. split.
  - intros (before & c & after & -> & _ & Hname & Himg).
    exists c. split; [|done]. apply elem_of_app. right. left.
  - intros (c & Hin & Hname & Himg).
    apply list_elem_of_split in Hin as (before & after & ->).
    exists before, c, after. split_and!; [done| |done|done].
    apply Forall_forall. intros c' Hc' Hname'.
    rewrite fmap_app, fmap_cons in Hnd. apply NoDup_app in Hnd as (_ & Hdis & _).
    apply (Hdis (v1.Name c')); [by apply list_elem_of_fmap_2|].
    rewrite Hname', <- Hname. left.
Qed.

(** ** Two runs side by side *)

(** Callbacks that keep a relation between their states keep it over the
    whole enumeration. *)
Lemma forEach_related {S1 S2 : Type} (R : S1 → S2 → Prop)
    (fn1 : Instance → S1 → option (bool * S1))
    (fn2 : Instance → S2 → option (bool * S2)) rs s1 s2 :
  (∀ r s1 s2, R s1 s2 →
     option_Forall2 (λ bs1 bs2, bs1.1 = bs2.1 ∧ R bs1.2 bs2.2) (fn1 r s1) (fn2 r s2)) →
  R s1 s2 →
  option_Forall2 R (forEach rs fn1 s1) (forEach rs fn2 s2).
Proof.
  intros Hstep. revert s1 s2. induction rs as [|r rs IH]; intros s1 s2 HR; simpl.
  - by constructor.
  - destruct (Hstep r s1 s2 HR) as [[b1 s1'] [b2 s2'] [Hb HR']|]; [|constructor].
    simpl in *. subst b2. destruct b1; [by apply IH|by constructor].
Qed.

Lemma forgetKnown_outcome revisions1 revisions2 r o s1 s2 :
  s1.1 = s2.1 → forgetKnown <$> s1.2 = forgetKnown <$> s2.2 →
  (outcomeEffect revisions1 r o s1).1 = (outcomeEffect revisions2 r o s2).1 ∧
  forgetKnown <$> (outcomeEffect revisions1 r o s1).2 =
    forgetKnown <$> (outcomeEffect revisions2 r o s2).2.
Proof.
  intros H1 H2. destruct o; simpl; unfold Report; rewrite ?fmap_app; simpl;
    split; congruence.
Qed.

(** The second pass, run with two slices of revisions, makes the same
    decisions and reports the same diagnostics up to the known revisions. *)
Lemma second_pass_related IsSystemNamespace controlPlaneRevisions
    revisions1 revisions2 namespaces :
  option_Forall2
    (λ s1 s2, s1.1 = s2.1 ∧ forgetKnown <$> s1.2 = forgetKnown <$> s2.2)
    (forEach namespaces
       (Analyze_func2 IsSystemNamespace controlPlaneRevisions revisions1) (∅, []))
    (forEach namespaces
       (Analyze_func2 IsSystemNamespace controlPlaneRevisions revisions2) (∅, [])).
Proof.
  apply forEach_related; [|done].
  intros r s1 s2 [H1 H2].
  destruct (IsSystemNamespace (FullName (Metadata r))) eqn:Hsys.
  - rewrite !func2_system by done. by constructor.
  - destruct (func2_outcome IsSystemNamespace controlPlaneRevisions r Hsys) as [o Ho].
    rewrite !Ho. constructor. split; [done|]. by apply forgetKnown_outcome.
Qed.

Lemma third_pass_related EqualFold injectedNamespaces pods reports1 reports2 :
  forgetKnown <$> reports1 = forgetKnown <$> reports2 →
  option_Forall2 (λ reps1 reps2, forgetKnown <$> reps1 = forgetKnown <$> reps2)
    (forEach pods (Analyze_func3 EqualFold injectedNamespaces) reports1)
    (forEach pods (Analyze_func3 EqualFold injectedNamespaces) reports2).
Proof.
  intros H.
  apply (forEach_related
    (λ reps1 reps2, forgetKnown <$> reps1 = forgetKnown <$> reps2)); [|done].
  clear H. intros r reps1 reps2 HR.
  rewrite (func3_append _ _ r reps1), (func3_append _ _ r reps2).
  destruct (Analyze_func3 _ _ r []) as [[b new]|]; simpl; constructor.
  split; [done|]. simpl. by rewrite !fmap_app, HR.
Qed.

(** A rearrangement of at most one element is no rearrangement. *)
Lemma Permutation_short {A : Type} (l1 l2 l : list A) :
  l1 ≡ₚ l → l2 ≡ₚ l → length l ≤ 1 → l1 = l2.
Proof.
  intros H1 H2 Hlen. destruct l as [|x [|y l]]; simpl in Hlen; [| |lia].
  - apply Permutation_nil_r in H1, H2. by subst.
  - apply Permutation_singleton_r in H1, H2. by subst.
Qed.

(** The second pass only ever stores [true]: a name is in the injected set
    exactly when its entry reads [true]. *)
Lemma second_pass_values IsSystemNamespace controlPlaneRevisions revisions
    namespaces s name :
  forEach namespaces
    (Analyze_func2 IsSystemNamespace controlPlaneRevisions revisions) (∅, []) = Some s →
  index false s.1 name = true ↔ name ∈ dom s.1.
Proof.
  intros Hrun.
  cut (∀ k b, s.1 !! k = Some b → b = true).
  { intros Hall. unfold index. rewrite elem_of_dom. split.
    - destruct (s.1 !! name); [by eexists|done].
    - intros [b Hb]. rewrite Hb. simpl. by eapply Hall. }
  revert Hrun.
  apply (forEach_invariant _ (λ s, ∀ k b, s.1 !! k = Some b → b = true)); [|done].
  intros r s0 b0 s0' _ Hall H k b.
  destruct (IsSystemNamespace (FullName (Metadata r))) eqn:Hsys.
  - rewrite func2_system in H by done. simplify_eq. apply Hall.
  - destruct (func2_outcome IsSystemNamespace controlPlaneRevisions r Hsys) as [o Ho].
    rewrite Ho in H. simplify_eq. destruct o; simpl; try apply Hall.
    destruct (decide (FullName (Metadata r) = k)) as [->|Hne].
    + rewrite lookup_insert_eq. congruence.
    + rewrite lookup_insert_ne by done. apply Hall.
Qed.

(** The outcomes differ in what they do to an empty accumulator. *)
Lemma outcomeEffect_inj revisions r o1 o2 :
  outcomeEffect revisions r o1 (∅, []) = outcomeEffect revisions r o2 (∅, []) →
  o1 = o2.
Proof.
  destruct o1, o2; simpl; intros H; try done; simplify_eq;
    apply (f_equal (.!! FullName (Metadata r))) in H;
    by rewrite lookup_insert_eq, lookup_empty in H.
Qed.

Lemma RangeOrder_ascending : RangeOrder ascending.
Proof. intros m. done. Qed.

Lemma RangeOrder_descending : RangeOrder descending.
Proof. intros m. apply reverse_Permutation. Qed.

(** ** The scenarios of the specification *)

(** A: a control plane with the revision canary, a namespace pinned to it
    and a pod with its proxy: nothing to report. *)
Example scenario_A : analyze ascending canaryPlane = Some [].
Proof. reflexivity. Qed.

(** B: a namespace without injection labels is reported; its pods are not
    looked at. *)
Example scenario_B :
  analyze ascending
    {| Namespaces := [unlabelled]; Pods := [podResource "ns2" "app" [] [] []] |} =
  Some [(collections.K8SCoreV1Namespaces,
         msg.NewNamespaceNotInjected unlabelled "ns2" "ns2")].
Proof. reflexivity. Qed.

(** C: the pod opts out by annotation, in any letter case. *)
Example scenario_C :
  analyze ascending
    {| Namespaces := [namespaceResource "ns3" [("istio-injection", "enabled")]];
       Pods := [podResource "ns3" "app" []
                  [("sidecar.istio.io/inject", "False")] []] |} =
  Some [].
Proof. reflexivity. Qed.

(** D: a pod of an injected namespace without the proxy is reported. *)
Example scenario_D :
  analyze ascending
    {| Namespaces := [namespaceResource "ns4" [("istio-injection", "enabled")]];
       Pods := [podResource "ns4" "app" [] []
                  [{| v1.Name := "app"; v1.Image := "httpbin" |}]] |} =
  Some [(collections.K8SCoreV1Pods,
         msg.NewPodMissingProxy
           (podResource "ns4" "app" [] []
              [{| v1.Name := "app"; v1.Image := "httpbin" |}]))].
Proof. reflexivity. Qed.

(** A payload that is no pod in the pod collection stops the run. *)
Example panic_on_other_payload :
  analyze ascending {| Namespaces := []; Pods := [unlabelled] |} = None.
Proof. reflexivity. Qed.

(** ** Properties of the analyzer *)

(** C4. On a snapshot whose pod resources carry pods, the first pass ends
    with a map whose keys are exactly the revision-label values of the pods
    that are in the mesh system namespace and whose label [app] is
    [istiod]. A pod that is not of the control plane, or that has no
    revision label, leaves the map as it is, and an empty pod snapshot
    gives the empty map. *)
Theorem control_plane_revisions (c : Context) :
  podsWellTyped c →
  (∃ controlPlaneRevisions,
     ForEach c collections.K8SCoreV1Pods Analyze_func1 ∅
       = Some controlPlaneRevisions ∧
     (∀ revision, revision ∈ dom controlPlaneRevisions ↔
        ∃ r pod, r ∈ Pods c ∧ Message r = Pod pod ∧
          v1.Namespace pod = IstioSystemNamespace ∧
          v1.Labels pod !! "app" = Some "istiod" ∧
          Labels (Metadata r) !! RevisionLabel = Some revision) ∧
     (Pods c = [] → controlPlaneRevisions = ∅)) ∧
  (∀ r pod m, Message r = Pod pod →
     ¬ (v1.Namespace pod = IstioSystemNamespace ∧
        v1.Labels pod !! "app" = Some "istiod") ∨
     Labels (Metadata r) !! RevisionLabel = None →
     Analyze_func1 r m = Some (true, m)).
Proof.
  intros Hty. split.
  - destruct (first_pass_total (Pods c) ∅ Hty) as [m Hm].
    exists m. split_and!; [done| |].
    + intros revision. rewrite (first_pass_dom _ _ _ _ Hm), dom_empty_L.
      split.
      * intros [?|(r & pod & ? & ? & [? ?]%isControlPlane_spec & ?)]; [done|].
        exists r, pod. by split_and!.
      * intros (r & pod & ? & ? & ? & ? & ?). right. exists r, pod.
        split_and!; [done|done| |done]. by apply isControlPlane_spec.
    + intros Hnil. unfold ForEach in Hm. simpl in Hm. rewrite Hnil in Hm.
      simpl in Hm. by simplify_eq.
  - intros r pod m Hm Hno. rewrite (Analyze_func1_step r pod m Hm).
    destruct (isControlPlane pod) eqn:Hcp; [|done].
    apply isControlPlane_spec in Hcp. destruct Hno as [Hno| ->]; done.
Qed.

Lemma control_plane_revisions_witness :
  podsWellTyped canaryPlane ∧
  ∃ m, ForEach canaryPlane collections.K8SCoreV1Pods Analyze_func1 ∅ = Some m ∧
       "canary" ∈ dom m.
Proof.
  assert (podsWellTyped canaryPlane) as Hty
    by (repeat constructor; by eexists).
  split; [exact Hty|].
  destruct (control_plane_revisions canaryPlane Hty) as [(m & Hm & Hdom & _) _].
  exists m. split; [exact Hm|]. apply Hdom.
  eexists (istiod "canary"), _. split_and!; [left|reflexivity..].
Defined.

Section Namespaces.
Variable IsSystemNamespace : string → bool.
Variable controlPlaneRevisions : gmap string bool.

(** C5. A namespace outside the system namespaces that has neither the
    legacy label nor the revision label gets exactly one
    namespace-not-injected report and the injected set is left as it is;
    at the end of the pass its name is not in the injected set, when no
    other resource of the snapshot bears that name. *)
Theorem namespace_not_injected (revisions : list string) (r : Instance) :
  IsSystemNamespace (FullName (Metadata r)) = false →
  Labels (Metadata r) !! InjectionLabelName = None →
  Labels (Metadata r) !! RevisionLabel = None →
  (∀ injectedNamespaces reports,
     Analyze_func2 IsSystemNamespace controlPlaneRevisions revisions r (injectedNamespaces, reports) =
       Some (true, (injectedNamespaces,
         reports ++ [(collections.K8SCoreV1Namespaces,
           msg.NewNamespaceNotInjected r
             (FullName (Metadata r)) (FullName (Metadata r)))]))) ∧
  (∀ c injectedNamespaces reports,
     (∀ r', r' ∈ Namespaces c →
            FullName (Metadata r') = FullName (Metadata r) → r' = r) →
     ForEach c collections.K8SCoreV1Namespaces (Analyze_func2 IsSystemNamespace controlPlaneRevisions revisions) (∅, [])
       = Some (injectedNamespaces, reports) →
     FullName (Metadata r) ∉ dom injectedNamespaces).
Proof.
  intros Hsys Hleg Hrev.
  assert (∀ s, Analyze_func2 IsSystemNamespace controlPlaneRevisions revisions r s =
            Some (true, outcomeEffect revisions r NotInjectedByAbsence s)) as Hrow.
  { intros s. apply func2_absent; [done| |done]. unfold index. by rewrite Hleg. }
  split.
  - intros inj reps. by rewrite Hrow.
  - intros c inj reps Huniq Hrun. apply not_elem_of_dom.
    apply (second_pass_absent _ _ _ _ r _ _ (λ s0, ltac:(by rewrite Hrow))
             Huniq Hrun).
    done.
Qed.

(** C9. A namespace that the system-namespace predicate accepts is passed
    over whatever its labels are: nothing is reported and the injected set
    is left as it is. *)
Theorem system_namespace_skipped (revisions : list string) (r : Instance)
    (s : gmap string bool * Reports) :
  IsSystemNamespace (FullName (Metadata r)) = true →
  Analyze_func2 IsSystemNamespace controlPlaneRevisions revisions r s = Some (true, s).
Proof. apply func2_system. Qed.

(** C7. A legacy label with the empty string as its value counts as no
    legacy label: without a revision label the namespace gets the
    namespace-not-injected report; with a revision label it is not
    reported as carrying both labels, but judged on the revision, which is
    either unknown and reported or known and makes the namespace
    injected. *)
Theorem empty_legacy_label (revisions : list string) (r : Instance)
    (injectedNamespaces : gmap string bool) (reports : Reports) :
  IsSystemNamespace (FullName (Metadata r)) = false →
  Labels (Metadata r) !! InjectionLabelName = Some "" →
  (Labels (Metadata r) !! RevisionLabel = None →
     Analyze_func2 IsSystemNamespace controlPlaneRevisions revisions r (injectedNamespaces, reports) =
       Some (true, (injectedNamespaces,
         reports ++ [(collections.K8SCoreV1Namespaces,
           msg.NewNamespaceNotInjected r
             (FullName (Metadata r)) (FullName (Metadata r)))]))) ∧
  (∀ revision,
     Labels (Metadata r) !! RevisionLabel = Some revision →
     revision ∉ dom controlPlaneRevisions →
     Analyze_func2 IsSystemNamespace controlPlaneRevisions revisions r (injectedNamespaces, reports) =
       Some (true, (injectedNamespaces,
         reports ++ [(collections.K8SCoreV1Namespaces,
           msg.NewNamespaceInvalidInjectorRevision r revision
             (FullName (Metadata r)) (Join revisions ", "))]))) ∧
  (∀ revision,
     Labels (Metadata r) !! RevisionLabel = Some revision →
     revision ∈ dom controlPlaneRevisions →
     Analyze_func2 IsSystemNamespace controlPlaneRevisions revisions r (injectedNamespaces, reports) =
       Some (true,
         (<[FullName (Metadata r) := true]> injectedNamespaces, reports))).
Proof.
  intros Hsys Hleg.
  assert (index "" (Labels (Metadata r)) InjectionLabelName = "") as Hidx
    by (unfold index; by rewrite Hleg).
  split_and!.
  - intros Hrev. by rewrite func2_absent.
  - intros revision Hrev Hcp%not_elem_of_dom.
    rewrite (func2_invalid _ _ _ _ _ revision) by done.
    simpl. unfold index. by rewrite Hrev.
  - intros revision Hrev Hcp%elem_of_dom.
    by rewrite (func2_valid _ _ _ _ _ revision).
Qed.

(** C8. A namespace outside the system namespaces takes exactly one of
    the five outcomes, and a visit appends at most one report. *)
Theorem classification_exclusive (revisions : list string) (r : Instance) :
  IsSystemNamespace (FullName (Metadata r)) = false →
  (∃ o, (∀ s, Analyze_func2 IsSystemNamespace controlPlaneRevisions revisions r s = Some (true, outcomeEffect revisions r o s)) ∧
        ∀ o', (∀ s, Analyze_func2 IsSystemNamespace controlPlaneRevisions revisions r s
                      = Some (true, outcomeEffect revisions r o' s)) →
              o' = o) ∧
  (∀ s b s', Analyze_func2 IsSystemNamespace controlPlaneRevisions revisions r s = Some (b, s') →
     ∃ new, s'.2 = s.2 ++ new ∧ length new ≤ 1).
Proof.
  intros Hsys.
  destruct (func2_outcome IsSystemNamespace controlPlaneRevisions r Hsys) as [o Ho].
  split.
  - exists o. split; [done|]. intros o' Ho'.
    apply (outcomeEffect_inj revisions r).
    specialize (Ho revisions (∅, [])). specialize (Ho' (∅, [])). congruence.
  - intros s b s' H. rewrite Ho in H. simplify_eq.
    destruct o; simpl;
      first [ eexists [_]; split; [reflexivity|simpl; lia]
            | exists []; split; [by rewrite app_nil_r|simpl; lia] ].
Qed.

(** C2, as the analyzer has it. A namespace outside the system namespaces
    that has the revision label and the legacy label with a value other
    than the empty string, whatever the two values are otherwise, gets
    exactly one namespace-multiple-injection-labels report and the
    injected set is left as it is. *)
Theorem multiple_injection_labels (revisions : list string) (r : Instance)
    (legacy revision : string)
    (injectedNamespaces : gmap string bool) (reports : Reports) :
  IsSystemNamespace (FullName (Metadata r)) = false →
  Labels (Metadata r) !! InjectionLabelName = Some legacy →
  legacy ≠ "" →
  Labels (Metadata r) !! RevisionLabel = Some revision →
  Analyze_func2 IsSystemNamespace controlPlaneRevisions revisions r (injectedNamespaces, reports) =
    Some (true, (injectedNamespaces,
      reports ++ [(collections.K8SCoreV1Namespaces,
        msg.NewNamespaceMultipleInjectionLabels r
          (FullName (Metadata r)) (FullName (Metadata r)))])).
Proof.
  intros Hsys Hleg Hne Hrev.
  rewrite (func2_conflict _ _ _ _ _ revision); [done|done| |done].
  unfold index. by rewrite Hleg.
Qed.

(** C6, as the analyzer has it. A namespace outside the system namespaces
    that has no revision label and whose legacy label has a value that is
    neither the empty string nor ["enabled"] is passed over: nothing is
    reported and the injected set is left as it is. *)
Theorem explicitly_disabled (revisions : list string) (r : Instance)
    (legacy : string) (s : gmap string bool * Reports) :
  IsSystemNamespace (FullName (Metadata r)) = false →
  Labels (Metadata r) !! InjectionLabelName = Some legacy →
  legacy ≠ "" →
  legacy ≠ InjectionLabelEnableValue →
  Labels (Metadata r) !! RevisionLabel = None →
  Analyze_func2 IsSystemNamespace controlPlaneRevisions revisions r s = Some (true, s).
Proof.
  intros Hsys Hleg Hne Hen Hrev.
  rewrite func2_disabled; [done|done| | |done]; unfold index; by rewrite Hleg.
Qed.

(** C1, as the analyzer has it. A namespace outside the system namespaces
    that has the revision label and no legacy label, and whose revision is
    not a key of the map of the first pass, gets exactly one
    namespace-invalid-injector-revision report and the injected set is
    left as it is. The report carries the requested revision, the name of
    the namespace and the known revisions joined with a comma and a
    space, in the order in which the runtime enumerates the map: each
    revision of the discovery order once, in some order. *)
Theorem invalid_injector_revision (order : gmap string bool → list string)
    (c : Context) (r : Instance) (revision : string)
    (injectedNamespaces : gmap string bool) (reports : Reports) :
  RangeOrder order →
  ForEach c collections.K8SCoreV1Pods Analyze_func1 ∅
    = Some controlPlaneRevisions →
  IsSystemNamespace (FullName (Metadata r)) = false →
  Labels (Metadata r) !! InjectionLabelName = None →
  Labels (Metadata r) !! RevisionLabel = Some revision →
  revision ∉ dom controlPlaneRevisions →
  ∃ known,
    known ≡ₚ discoveryOrder (Pods c) ∧
    Analyze_func2 IsSystemNamespace controlPlaneRevisions (rangeAppend (order controlPlaneRevisions)) r
        (injectedNamespaces, reports) =
      Some (true, (injectedNamespaces,
        reports ++ [(collections.K8SCoreV1Namespaces,
          msg.NewNamespaceInvalidInjectorRevision r revision
            (FullName (Metadata r)) (Join known ", "))])).
Proof.
  intros Hord Hrun Hsys Hleg Hrev Hcp%not_elem_of_dom.
  exists (rangeAppend (order controlPlaneRevisions)). split.
  - by apply revisions_discovered.
  - rewrite (func2_invalid _ _ _ _ _ revision); [|done| |done|done].
    + simpl. unfold index. by rewrite Hrev.
    + unfold index. by rewrite Hleg.
Qed.

End Namespaces.

Lemma namespace_not_injected_witness :
  kubeNamespaces (FullName (Metadata unlabelled)) = false ∧
  Analyze_func2 kubeNamespaces ∅ [] unlabelled (∅, []) =
    Some (true, (∅, [(collections.K8SCoreV1Namespaces,
                      msg.NewNamespaceNotInjected unlabelled "ns2" "ns2")])).
Proof.
  split; [reflexivity|].
  apply (namespace_not_injected kubeNamespaces ∅ [] unlabelled);
    reflexivity.
Defined.

Lemma system_namespace_skipped_witness :
  kubeNamespaces (FullName (Metadata kubeSystem)) = true ∧
  Analyze_func2 kubeNamespaces ∅ [] kubeSystem (∅, []) = Some (true, (∅, [])).
Proof.
  split; [reflexivity|].
  apply (system_namespace_skipped kubeNamespaces ∅ [] kubeSystem). reflexivity.
Defined.

Lemma empty_legacy_label_witness :
  Labels (Metadata emptyLegacy) !! InjectionLabelName = Some "" ∧
  Analyze_func2 kubeNamespaces ∅ [] emptyLegacy (∅, []) =
    Some (true, (∅, [(collections.K8SCoreV1Namespaces,
                      msg.NewNamespaceNotInjected emptyLegacy "ns" "ns")])).
Proof.
  split; [reflexivity|].
  apply (empty_legacy_label kubeNamespaces ∅ [] emptyLegacy ∅ []);
    reflexivity.
Defined.

Lemma classification_exclusive_witness :
  kubeNamespaces (FullName (Metadata disabled)) = false ∧
  ∃ o, ∀ s, Analyze_func2 kubeNamespaces ∅ [] disabled s
              = Some (true, outcomeEffect [] disabled o s).
Proof.
  split; [reflexivity|].
  destruct (classification_exclusive kubeNamespaces ∅ [] disabled eq_refl)
    as [(o & Ho & _) _].
  exists o. exact Ho.
Defined.

Lemma multiple_injection_labels_witness :
  Labels (Metadata bothLabels) !! InjectionLabelName = Some "enabled" ∧
  Labels (Metadata bothLabels) !! RevisionLabel = Some "canary" ∧
  Analyze_func2 kubeNamespaces ∅ [] bothLabels (∅, []) =
    Some (true, (∅, [(collections.K8SCoreV1Namespaces,
                      msg.NewNamespaceMultipleInjectionLabels bothLabels "ns" "ns")])).
Proof.
  split_and!; [reflexivity..|].
  apply (multiple_injection_labels kubeNamespaces ∅ [] bothLabels
           "enabled" "canary" ∅ []); first [reflexivity | discriminate].
Defined.

Lemma explicitly_disabled_witness :
  Labels (Metadata disabled) !! InjectionLabelName = Some "disabled" ∧
  Analyze_func2 kubeNamespaces ∅ [] disabled (∅, []) = Some (true, (∅, [])).
Proof.
  split; [reflexivity|].
  apply (explicitly_disabled kubeNamespaces ∅ [] disabled "disabled");
    first [reflexivity | discriminate].
Defined.

Lemma invalid_injector_revision_witness :
  RangeOrder descending ∧
  ∃ known, known ≡ₚ ["a"; "b"] ∧
    Analyze_func2 kubeNamespaces {["a" := true; "b" := true]}
        (rangeAppend (descending {["a" := true; "b" := true]}))
        requestsUnknown (∅, []) =
      Some (true, (∅, [(collections.K8SCoreV1Namespaces,
        msg.NewNamespaceInvalidInjectorRevision requestsUnknown "c" "ns"
          (Join known ", "))])).
Proof.
  split; [exact RangeOrder_descending|].
  apply (invalid_injector_revision kubeNamespaces {["a" := true; "b" := true]}
           descending twoRevisions requestsUnknown "c" ∅ []
           RangeOrder_descending); try reflexivity.
  apply not_elem_of_dom. reflexivity.
Defined.

(** C2, a namespace the statement does not hold for: both labels are set,
    the legacy one to the empty string. With the revision known the
    namespace is injected and nothing is reported. *)
Lemma multiple_injection_labels_empty_legacy :
  kubeNamespaces (FullName (Metadata emptyLegacyWithRevision)) = false ∧
  Labels (Metadata emptyLegacyWithRevision) !! InjectionLabelName = Some "" ∧
  Labels (Metadata emptyLegacyWithRevision) !! RevisionLabel = Some "canary" ∧
  Analyze_func2 kubeNamespaces {["canary" := true]} ["canary"]
      emptyLegacyWithRevision (∅, []) =
    Some (true, ({["ns" := true]}, [])) ∧
  Analyze_func2 kubeNamespaces {["canary" := true]} ["canary"]
      emptyLegacyWithRevision (∅, []) ≠
    Some (true, (∅, [(collections.K8SCoreV1Namespaces,
      msg.NewNamespaceMultipleInjectionLabels emptyLegacyWithRevision "ns" "ns")])).
Proof. split_and!; [reflexivity..|discriminate]. Qed.

(** C6, a namespace the statement does not hold for: the legacy label is
    set to the empty string, a value other than ["enabled"], and there is
    no revision label. The namespace-not-injected report is made. *)
Lemma explicitly_disabled_empty_legacy :
  kubeNamespaces (FullName (Metadata emptyLegacy)) = false ∧
  Labels (Metadata emptyLegacy) !! InjectionLabelName = Some "" ∧
  "" ≠ InjectionLabelEnableValue ∧
  Labels (Metadata emptyLegacy) !! RevisionLabel = None ∧
  Analyze_func2 kubeNamespaces ∅ [] emptyLegacy (∅, []) =
    Some (true, (∅, [(collections.K8SCoreV1Namespaces,
      msg.NewNamespaceNotInjected emptyLegacy "ns" "ns")])) ∧
  Analyze_func2 kubeNamespaces ∅ [] emptyLegacy (∅, []) ≠ Some (true, (∅, [])).
Proof. split_and!; [reflexivity|reflexivity|discriminate|reflexivity..|discriminate]. Qed.

(** C1, a run the statement does not hold for: the control plane has the
    revisions a and b, met in this order, the namespace asks for c, and the
    runtime enumerates the map from b to a. The report lists b before a,
    which no separator turns into the discovery order. *)
Lemma invalid_injector_revision_order :
  RangeOrder descending ∧
  discoveryOrder (Pods twoRevisions) = ["a"; "b"] ∧
  analyze descending twoRevisions =
    Some [(collections.K8SCoreV1Namespaces,
      msg.NewNamespaceInvalidInjectorRevision requestsUnknown "c" "ns" "b, a")] ∧
  ∀ sep, Join (discoveryOrder (Pods twoRevisions)) sep ≠ "b, a".
Proof.
  split_and!; [exact RangeOrder_descending|reflexivity|reflexivity|].
  intros sep H. vm_compute in H. discriminate.
Qed.

Section Pods.
Variable EqualFold : string → string → bool.

(** C3, as the analyzer has it. A pod whose namespace is not in the
    injected set is passed over without a report, and so is a pod of an
    injected namespace whose sidecar-inject annotation equals ["false"]
    under case folding. Any other pod of an injected namespace gets the
    pod-missing-proxy report if and only if the first container named
    ["istio-proxy"] is missing or has an empty image; when the names of
    the containers are distinct this is: no container named
    ["istio-proxy"] has an image. After the second pass a namespace is in
    the injected set exactly when its entry reads [true]. *)
Theorem pod_missing_proxy (injectedNamespaces : gmap string bool)
    (r : Instance) (pod : v1.Pod) (reports : Reports) :
  Message r = Pod pod →
  (index false injectedNamespaces (v1.Namespace pod) = false →
     Analyze_func3 EqualFold injectedNamespaces r reports = Some (true, reports)) ∧
  (EqualFold (index "" (v1.Annotations pod) SidecarInject_Name) "false" = true →
     Analyze_func3 EqualFold injectedNamespaces r reports = Some (true, reports)) ∧
  (index false injectedNamespaces (v1.Namespace pod) = true →
   EqualFold (index "" (v1.Annotations pod) SidecarInject_Name) "false" = false →
     (Analyze_func3 EqualFold injectedNamespaces r reports =
        Some (true, reports ++
          [(collections.K8SCoreV1Pods, msg.NewPodMissingProxy r)]) ↔
      ¬ ∃ before container after,
          v1.Containers (v1.Spec pod) = before ++ container :: after ∧
          Forall (λ c, v1.Name c ≠ istioProxyName) before ∧
          v1.Name container = istioProxyName ∧ v1.Image container ≠ "") ∧
     (Analyze_func3 EqualFold injectedNamespaces r reports = Some (true, reports) ↔
      ∃ before container after,
          v1.Containers (v1.Spec pod) = before ++ container :: after ∧
          Forall (λ c, v1.Name c ≠ istioProxyName) before ∧
          v1.Name container = istioProxyName ∧ v1.Image container ≠ "") ∧
     (NoDup (v1.Name <$> v1.Containers (v1.Spec pod)) →
        Analyze_func3 EqualFold injectedNamespaces r reports =
          Some (true, reports ++
            [(collections.K8SCoreV1Pods, msg.NewPodMissingProxy r)]) ↔
        ¬ ∃ container, container ∈ v1.Containers (v1.Spec pod) ∧
            v1.Name container = istioProxyName ∧ v1.Image container ≠ "")) ∧
  (∀ IsSystemNamespace controlPlaneRevisions revisions c reports',
     ForEach c collections.K8SCoreV1Namespaces
       (Analyze_func2 IsSystemNamespace controlPlaneRevisions revisions) (∅, [])
       = Some (injectedNamespaces, reports') →
     index false injectedNamespaces (v1.Namespace pod) = true ↔
     v1.Namespace pod ∈ dom injectedNamespaces).
Proof.
  intros Hm. rewrite (func3_step _ _ r pod reports Hm).
  assert (reports ++ [(collections.K8SCoreV1Pods, msg.NewPodMissingProxy r)]
          ≠ reports) as Hneq.
  { intros H. apply (f_equal length) in H. rewrite length_app in H.
    simpl in H. lia. }
  split_and!.
  - by intros ->.
  - intros ->. by destruct (negb _).
  - intros -> ->. simpl.
    pose proof (proxyImageOf_first (v1.Containers (v1.Spec pod))) as Hfirst.
    pose proof (proxyImageOf_unique (v1.Containers (v1.Spec pod))) as Huniq.
    assert (∀ x y : Reports, Some (true, x) = Some (true, y) ↔ x = y)
      as Hinj by (intros x y; split; [by intros [= ->]|by intros ->]).
    rewrite !Hinj. case_bool_decide as Himg; split_and!.
    + split; [|done]. intros _ H%Hfirst. done.
    + split; [done|]. intros H%Hfirst. done.
    + intros Hnd. split; [|done]. intros _ H%(Huniq Hnd). done.
    + split; [by intros H|]. intros H. exfalso. by apply H, Hfirst.
    + split; [|done]. intros _. by apply Hfirst.
    + intros Hnd. split; [by intros H|].
      intros H. exfalso. by apply H, (Huniq Hnd).
  - intros IsSys cpr revisions c reports' Hrun.
    apply (second_pass_values _ _ _ _ _ _ Hrun).
Qed.

End Pods.

Lemma pod_missing_proxy_witness :
  Message twoProxies =
    Pod {| v1.Namespace := "ns4"; v1.Labels := ∅; v1.Annotations := ∅;
           v1.Spec := {| v1.Containers := [proxy ""; proxy "proxyv2"] |} |} ∧
  index false ({["ns4" := true]} : gmap string bool) "ns4" = true ∧
  EqualFoldASCII (index "" (∅ : gmap string string) SidecarInject_Name) "false"
    = false ∧
  Analyze_func3 EqualFoldASCII {["ns4" := true]} twoProxies [] =
    Some (true, [(collections.K8SCoreV1Pods, msg.NewPodMissingProxy twoProxies)]).
Proof.
  split_and!; [reflexivity..|].
  destruct (pod_missing_proxy EqualFoldASCII {["ns4" := true]} twoProxies _ []
              eq_refl) as (_ & _ & Hinjected & _).
  destruct (Hinjected eq_refl eq_refl) as ([_ Hmissing] & _).
  apply Hmissing.
  intros (before & container & after & Heq & Hbefore & Hname & Himg).
  destruct before as [|c0 before]; simpl in Heq.
  - injection Heq as <- _. apply Himg. reflexivity.
  - injection Heq as <- _. apply Forall_cons in Hbefore as [Hc0 _].
    apply Hc0. reflexivity.
Defined.

(** C3, a pod the statement does not hold for: it has a container named
    ["istio-proxy"] with an image, after another of that name without one.
    The loop stops at the first of the two and the report is made. *)
Lemma pod_missing_proxy_first_match :
  (∃ pod container,
     Message twoProxies = Pod pod ∧
     container ∈ v1.Containers (v1.Spec pod) ∧
     v1.Name container = "istio-proxy" ∧ v1.Image container ≠ "") ∧
  analyze ascending twoProxiesInjected =
    Some [(collections.K8SCoreV1Pods, msg.NewPodMissingProxy twoProxies)].
Proof.
  split; [|reflexivity].
  eexists _, (proxy "proxyv2"). split_and!; [reflexivity| |reflexivity|discriminate].
  right. left.
Qed.

(** C10, a snapshot the statement does not hold for: the control plane has
    two revisions and a namespace asks for a third. A run that enumerates
    the map upwards and one that enumerates it downwards report different
    lists of known revisions. *)
Lemma analysis_depends_on_order :
  RangeOrder ascending ∧ RangeOrder descending ∧
  analyze ascending twoRevisions =
    Some [(collections.K8SCoreV1Namespaces,
      msg.NewNamespaceInvalidInjectorRevision requestsUnknown "c" "ns" "a, b")] ∧
  analyze descending twoRevisions =
    Some [(collections.K8SCoreV1Namespaces,
      msg.NewNamespaceInvalidInjectorRevision requestsUnknown "c" "ns" "b, a")] ∧
  analyze ascending twoRevisions ≠ analyze descending twoRevisions.
Proof.
  split_and!;
    [exact RangeOrder_ascending|exact RangeOrder_descending|reflexivity..|].
  vm_compute. discriminate.
Qed.

(** ** The run as a whole *)

Section Run.
Variable IsSystemNamespace : string → bool.
Variable EqualFold : string → string → bool.
Variable controlPlaneRevisions : gmap string bool.

(** The outcome of a namespace decides what a visit contributes. *)
Lemma outcome_contribution r o :
  (∀ revisions s,
     Analyze_func2 IsSystemNamespace controlPlaneRevisions revisions r s
       = Some (true, outcomeEffect revisions r o s)) →
  namespaceInjected IsSystemNamespace controlPlaneRevisions r
    = match o with Enabled => true | _ => false end ∧
  ∀ revisions,
    namespaceReports IsSystemNamespace controlPlaneRevisions revisions r
      = (outcomeEffect revisions r o (∅, [])).2.
Proof.
  intros Ho. unfold namespaceInjected, namespaceReports. split.
  - rewrite Ho. destruct o; simpl; try done. by rewrite lookup_insert_eq.
  - intros revisions. by rewrite Ho.
Qed.

Lemma system_contribution r :
  IsSystemNamespace (FullName (Metadata r)) = true →
  namespaceInjected IsSystemNamespace controlPlaneRevisions r = false ∧
  ∀ revisions,
    namespaceReports IsSystemNamespace controlPlaneRevisions revisions r = [].
Proof.
  intros Hsys. unfold namespaceInjected, namespaceReports.
  split; [|intros revisions]; by rewrite func2_system.
Qed.

(** A visit adds its contribution to whatever state it starts from. *)
Lemma func2_effect revisions r s :
  Analyze_func2 IsSystemNamespace controlPlaneRevisions revisions r s =
    Some (true,
      (if namespaceInjected IsSystemNamespace controlPlaneRevisions r
       then <[FullName (Metadata r) := true]> s.1 else s.1,
       s.2 ++ namespaceReports IsSystemNamespace controlPlaneRevisions revisions r)).
Proof.
  destruct (IsSystemNamespace (FullName (Metadata r))) eqn:Hsys.
  - destruct (system_contribution r Hsys) as [-> ->].
    rewrite func2_system by done. rewrite app_nil_r. by destruct s.
  - destruct (func2_outcome IsSystemNamespace controlPlaneRevisions r Hsys) as [o Ho].
    destruct (outcome_contribution r o Ho) as [-> ->]. rewrite Ho.
    destruct s as [inj reps]. destruct o; simpl; by rewrite ?app_nil_r.
Qed.

Lemma second_pass_run revisions namespaces s :
  forEach namespaces
    (Analyze_func2 IsSystemNamespace controlPlaneRevisions revisions) s =
  Some (injectedAfter IsSystemNamespace controlPlaneRevisions namespaces s.1,
        s.2 ++ (namespaces ≫=
                namespaceReports IsSystemNamespace controlPlaneRevisions revisions)).
Proof.
  revert s. induction namespaces as [|r rs IH]; intros s.
  - simpl. rewrite app_nil_r. by destruct s.
  - rewrite (forEach_cons _ _ _ _ _ (func2_effect revisions r s)), IH.
    rewrite bind_cons. simpl. by rewrite app_assoc.
Qed.

Lemma namespaceReports_short revisions r :
  length (namespaceReports IsSystemNamespace controlPlaneRevisions revisions r) ≤ 1.
Proof.
  destruct (IsSystemNamespace (FullName (Metadata r))) eqn:Hsys.
  - destruct (system_contribution r Hsys) as [_ ->]. simpl. lia.
  - destruct (func2_outcome IsSystemNamespace controlPlaneRevisions r Hsys) as [o Ho].
    destruct (outcome_contribution r o Ho) as [_ ->]. destruct o; simpl; lia.
Qed.

(** The namespaces the second pass adds, in terms of their labels. *)
Lemma namespaceInjected_spec r :
  namespaceInjected IsSystemNamespace controlPlaneRevisions r = true ↔
  IsSystemNamespace (FullName (Metadata r)) = false ∧
  ((index "" (Labels (Metadata r)) InjectionLabelName = "" ∧
    ∃ revision, Labels (Metadata r) !! RevisionLabel = Some revision ∧
                revision ∈ dom controlPlaneRevisions) ∨
   (Labels (Metadata r) !! InjectionLabelName = Some InjectionLabelEnableValue ∧
    Labels (Metadata r) !! RevisionLabel = None)).
Proof.
  destruct (IsSystemNamespace (FullName (Metadata r))) eqn:Hsys.
  { destruct (system_contribution r Hsys) as [-> _]. split; [done|]. by intros []. }
  assert (∀ o, (∀ revisions s,
      Analyze_func2 IsSystemNamespace controlPlaneRevisions revisions r s
        = Some (true, outcomeEffect revisions r o s)) →
    namespaceInjected IsSystemNamespace controlPlaneRevisions r = true ↔ o = Enabled)
    as Hrow.
  { intros o Ho. destruct (outcome_contribution r o Ho) as [-> _].
    by destruct o. }
  destruct (decide (index "" (Labels (Metadata r)) InjectionLabelName = ""))
    as [Hleg|Hleg];
    destruct (Labels (Metadata r) !! RevisionLabel) as [revision|] eqn:Hrev.
  - destruct (controlPlaneRevisions !! revision) as [b|] eqn:Hcp.
    + rewrite (Hrow Enabled) by (intros; by eapply func2_valid).
      split; [|done]. intros _. split; [done|]. left. split; [done|].
      exists revision. split; [done|]. by apply elem_of_dom.
    + rewrite (Hrow InvalidRevision) by (intros; by eapply func2_invalid).
      split; [done|]. intros [_ [[_ (rev & ? & Hin)]|[_ ?]]]; [|done].
      simplify_eq. by apply not_elem_of_dom in Hcp.
  - rewrite (Hrow NotInjectedByAbsence) by (intros; by apply func2_absent).
    split; [done|]. intros [_ [[_ (rev & ? & _)]|[Hen _]]]; [done|].
    unfold index in Hleg. by rewrite Hen in Hleg.
  - rewrite (Hrow MultipleLabelConflict) by (intros; by eapply func2_conflict).
    split; [done|]. intros [_ [[? _]|[_ ?]]]; done.
  - destruct (decide (index "" (Labels (Metadata r)) InjectionLabelName
                      = InjectionLabelEnableValue)) as [Hen|Hen].
    + assert (Labels (Metadata r) !! InjectionLabelName
              = Some InjectionLabelEnableValue) as Hlab.
      { unfold index in Hen, Hleg.
        destruct (Labels (Metadata r) !! InjectionLabelName); simpl in *;
          by simplify_eq. }
      rewrite (Hrow Enabled) by (intros; by apply func2_enabled).
      split; [|done]. intros _. split; [done|]. by right.
    + rewrite (Hrow ExplicitlyDisabled) by (intros; by apply func2_disabled).
      split; [done|]. intros [_ [[? _]|[Hlab _]]]; [done|].
      unfold index in Hen. by rewrite Hlab in Hen.
Qed.

Lemma injectedAfter_index namespaces injectedNamespaces name :
  index false
    (injectedAfter IsSystemNamespace controlPlaneRevisions namespaces
       injectedNamespaces) name = true ↔
  index false injectedNamespaces name = true ∨
  ∃ r, r ∈ namespaces ∧ FullName (Metadata r) = name ∧
       namespaceInjected IsSystemNamespace controlPlaneRevisions r = true.
Proof.
  revert injectedNamespaces.
  induction namespaces as [|r rs IH]; intros inj.
  - split; [by left|]. intros [?|(r & Hin & _)]; [done|].
    by apply elem_of_nil in Hin.
  - change (injectedAfter IsSystemNamespace controlPlaneRevisions (r :: rs) inj)
      with (injectedAfter IsSystemNamespace controlPlaneRevisions rs
              (if namespaceInjected IsSystemNamespace controlPlaneRevisions r
               then <[FullName (Metadata r) := true]> inj else inj)).
    rewrite IH. clear IH. split.
    + intros [Hidx|(r0 & Hin & Hname & Hadd)].
      * destruct (namespaceInjected IsSystemNamespace controlPlaneRevisions r)
          eqn:Hadd; [|by left].
        destruct (decide (FullName (Metadata r) = name)) as [Hname|Hname].
        -- right. exists r. split; [left|done].
        -- left. unfold index in *. by rewrite lookup_insert_ne in Hidx.
      * right. exists r0. split; [by right|done].
    + intros [Hidx|(r0 & [->|Hin]%elem_of_cons & Hname & Hadd)].
      * left. destruct (namespaceInjected IsSystemNamespace controlPlaneRevisions r);
          [|done].
        destruct (decide (FullName (Metadata r) = name)) as [Hname|Hname];
          unfold index in *.
        -- subst name. by rewrite lookup_insert_eq.
        -- by rewrite lookup_insert_ne.
      * left. rewrite Hadd. subst name. unfold index.
        by rewrite lookup_insert_eq.
      * right. by exists r0.
Qed.

(** Third pass: a pod resource contributes its reports, any other payload
    stops the run. *)
Lemma func3_effect injectedNamespaces r reports :
  Analyze_func3 EqualFold injectedNamespaces r reports =
    match asPod (Message r) with
    | Some _ => Some (true, reports ++ podReports EqualFold injectedNamespaces r)
    | None => None
    end.
Proof.
  rewrite func3_append. unfold podReports.
  destruct (Message r) as [pod|] eqn:Hm; simpl.
  - by rewrite (func3_step _ _ r pod [] Hm).
  - unfold Analyze_func3. by rewrite Hm.
Qed.

Lemma third_pass_run injectedNamespaces pods reports :
  Forall (λ r, is_Some (asPod (Message r))) pods →
  forEach pods (Analyze_func3 EqualFold injectedNamespaces) reports =
    Some (reports ++ (pods ≫= podReports EqualFold injectedNamespaces)).
Proof.
  intros Hty. revert reports. induction Hty as [|r pods [pod Hr] _ IH]; intros reports.
  - simpl. by rewrite app_nil_r.
  - rewrite bind_cons. simpl. rewrite func3_effect, Hr, IH. by rewrite app_assoc.
Qed.

Lemma podReports_short injectedNamespaces r :
  length (podReports EqualFold injectedNamespaces r) ≤ 1.
Proof.
  unfold podReports. destruct (Message r) as [pod|] eqn:Hm.
  - rewrite (func3_step _ _ r pod [] Hm). unfold Report.
    repeat (case_match; simpl; try lia).
  - unfold Analyze_func3. rewrite Hm. simpl. lia.
Qed.

Lemma first_pass_welltyped pods m :
  is_Some (forEach pods Analyze_func1 m) →
  Forall (λ r, is_Some (asPod (Message r))) pods.
Proof.
  revert m. induction pods as [|r pods IH]; intros m Hrun; [done|].
  destruct (Message r) as [pod|] eqn:Hm.
  - rewrite (forEach_cons _ _ _ _ _ (Analyze_func1_step r pod m Hm)) in Hrun.
    constructor; [rewrite Hm; by eexists|by eapply IH].
  - simpl in Hrun. unfold Analyze_func1 in Hrun. rewrite Hm in Hrun.
    simpl in Hrun. by destruct Hrun.
Qed.

(** When a namespace is reported, and with what. *)
Lemma namespaceReports_spec revisions r rep :
  rep ∈ namespaceReports IsSystemNamespace controlPlaneRevisions revisions r ↔
  IsSystemNamespace (FullName (Metadata r)) = false ∧
  ((index "" (Labels (Metadata r)) InjectionLabelName = "" ∧
    Labels (Metadata r) !! RevisionLabel = None ∧
    rep = (collections.K8SCoreV1Namespaces,
           msg.NewNamespaceNotInjected r
             (FullName (Metadata r)) (FullName (Metadata r)))) ∨
   (index "" (Labels (Metadata r)) InjectionLabelName ≠ "" ∧
    is_Some (Labels (Metadata r) !! RevisionLabel) ∧
    rep = (collections.K8SCoreV1Namespaces,
           msg.NewNamespaceMultipleInjectionLabels r
             (FullName (Metadata r)) (FullName (Metadata r)))) ∨
   (index "" (Labels (Metadata r)) InjectionLabelName = "" ∧
    ∃ revision, Labels (Metadata r) !! RevisionLabel = Some revision ∧
      controlPlaneRevisions !! revision = None ∧
      rep = (collections.K8SCoreV1Namespaces,
             msg.NewNamespaceInvalidInjectorRevision r revision
               (FullName (Metadata r)) (Join revisions ", ")))).
Proof.
  destruct (IsSystemNamespace (FullName (Metadata r))) eqn:Hsys.
  { destruct (system_contribution r Hsys) as [_ ->].
    split; [by intros ?%elem_of_nil|by intros []]. }
  assert (∀ o, (∀ revisions s,
      Analyze_func2 IsSystemNamespace controlPlaneRevisions revisions r s
        = Some (true, outcomeEffect revisions r o s)) →
    namespaceReports IsSystemNamespace controlPlaneRevisions revisions r
      = (outcomeEffect revisions r o (∅, [])).2) as Hrow.
  { intros o Ho. by destruct (outcome_contribution r o Ho) as [_ ->]. }
  destruct (decide (index "" (Labels (Metadata r)) InjectionLabelName = ""))
    as [Hleg|Hleg];
    destruct (Labels (Metadata r) !! RevisionLabel) as [revision|] eqn:Hrev.
  - destruct (controlPlaneRevisions !! revision) as [b|] eqn:Hcp.
    + rewrite (Hrow Enabled) by (intros; by eapply func2_valid). simpl.
      split; [by intros ?%elem_of_nil|].
      intros [_ [(_ & ? & _)|[(? & _)|(_ & rev & ? & ? & _)]]]; [done|done|].
      by simplify_eq.
    + rewrite (Hrow InvalidRevision) by (intros; by eapply func2_invalid).
      simpl. unfold index at 1. rewrite Hrev. simpl.
      rewrite list_elem_of_singleton. split.
      * intros ->. split; [done|]. right. right. split; [done|].
        by exists revision.
      * intros [_ [(_ & ? & _)|[(? & _)|(_ & rev & ? & ? & ->)]]]; [done|done|].
        by simplify_eq.
  - rewrite (Hrow NotInjectedByAbsence) by (intros; by apply func2_absent).
    simpl. rewrite list_elem_of_singleton. split.
    + intros ->. split; [done|]. by left.
    + intros [_ [(_ & _ & ->)|[(? & _)|(_ & rev & ? & _)]]]; done.
  - rewrite (Hrow MultipleLabelConflict) by (intros; by eapply func2_conflict).
    simpl. rewrite list_elem_of_singleton. split.
    + intros ->. split; [done|]. right. left. split_and!; [done|by eexists|done].
    + intros [_ [(? & _)|[(_ & _ & ->)|(? & _)]]]; done.
  - assert (namespaceReports IsSystemNamespace controlPlaneRevisions revisions r
            = []) as ->.
    { destruct (decide (index "" (Labels (Metadata r)) InjectionLabelName
                        = InjectionLabelEnableValue)) as [Hen|Hen].
      - rewrite (Hrow Enabled); [done|]. intros. apply func2_enabled; [done| |done].
        unfold index in Hen, Hleg.
        destruct (Labels (Metadata r) !! InjectionLabelName); simpl in *;
          by simplify_eq.
      - rewrite (Hrow ExplicitlyDisabled); [done|]. intros.
        by apply func2_disabled. }
    split; [by intros ?%elem_of_nil|].
    intros [_ [(? & _)|[(_ & [] & _)|(? & _)]]]; done.
Qed.

(** When a pod is reported. *)
Lemma podReports_spec injectedNamespaces r rep :
  rep ∈ podReports EqualFold injectedNamespaces r ↔
  rep = (collections.K8SCoreV1Pods, msg.NewPodMissingProxy r) ∧
  ∃ pod, Message r = Pod pod ∧
    index false injectedNamespaces (v1.Namespace pod) = true ∧
    EqualFold (index "" (v1.Annotations pod) SidecarInject_Name) "false" = false ∧
    proxyImageOf (v1.Containers (v1.Spec pod)) "" = "".
Proof.
  unfold podReports. destruct (Message r) as [pod|] eqn:Hm.
  - rewrite (func3_step _ _ r pod [] Hm). unfold Report. simpl.
    destruct (index false injectedNamespaces (v1.Namespace pod)) eqn:Hinj; simpl.
    + destruct (EqualFold _ _) eqn:Hfold.
      * split; [by intros ?%elem_of_nil|]. intros (_ & ? & ? & _ & ? & _).
        simplify_eq. congruence.
      * case_bool_decide as Himg.
        -- rewrite list_elem_of_singleton. split; [|by intros [? _]].
           intros ->. split; [done|]. by exists pod.
        -- split; [by intros ?%elem_of_nil|]. intros (_ & ? & ? & _ & _ & ?).
           by simplify_eq.
    + split; [by intros ?%elem_of_nil|]. intros (_ & ? & ? & ? & _).
      simplify_eq. congruence.
  - unfold Analyze_func3. rewrite Hm. simpl.
    split; [by intros ?%elem_of_nil|]. by intros (_ & ? & ? & _).
Qed.

(** The first pass only ever stores [true]. *)
Lemma first_pass_values pods m k b :
  forEach pods Analyze_func1 ∅ = Some m → m !! k = Some b → b = true.
Proof.
  intros Hrun. revert k b. revert Hrun.
  apply (forEach_invariant _ (λ m : gmap string bool,
           ∀ k b, m !! k = Some b → b = true)); [|done].
  intros r m0 b0 m0' _ Hall H k b. unfold Analyze_func1 in H.
  destruct (asPod (Message r)) as [pod|]; simpl in H; [|done].
  destruct (isControlPlane pod); [|simplify_eq; apply Hall].
  destruct (Labels (Metadata r) !! RevisionLabel) as [rev|];
    simplify_eq; [|apply Hall].
  destruct (decide (rev = k)) as [->|Hne].
  - rewrite lookup_insert_eq. congruence.
  - rewrite lookup_insert_ne by done. apply Hall.
Qed.

End Run.

(** The decomposition of a run into its three passes. *)
Lemma Analyze_passes IsSystemNamespace EqualFold order c :
  Analyze IsSystemNamespace EqualFold order c =
    m ← forEach (Pods c) Analyze_func1 ∅;
    forEach (Pods c)
      (Analyze_func3 EqualFold
         (injectedAfter IsSystemNamespace m (Namespaces c) ∅))
      (Namespaces c ≫=
         namespaceReports IsSystemNamespace m (rangeAppend (order m))).
Proof.
  unfold Analyze, ForEach. simpl.
  destruct (forEach (Pods c) Analyze_func1 ∅) as [m|]; [|done]. simpl.
  by rewrite second_pass_run.
Qed.


(** A run that ends has met only pods in the pod collection, and its reports
    are the contributions of the namespaces followed by those of the pods. *)
Lemma Analyze_Some_inv IsSystemNamespace EqualFold order c reports :
  Analyze IsSystemNamespace EqualFold order c = Some reports →
  podsWellTyped c ∧
  ∃ m, forEach (Pods c) Analyze_func1 ∅ = Some m ∧
    reports =
      (Namespaces c ≫=
         namespaceReports IsSystemNamespace m (rangeAppend (order m))) ++
      (Pods c ≫=
         podReports EqualFold (injectedAfter IsSystemNamespace m (Namespaces c) ∅)).
Proof.
  rewrite Analyze_passes. intros Hrun.
  destruct (forEach (Pods c) Analyze_func1 ∅) as [m|] eqn:Hm; [|done].
  assert (podsWellTyped c) as Hty.
  { apply (first_pass_welltyped (Pods c) ∅). rewrite Hm. by eexists. }
  split; [done|]. exists m. split; [done|].
  simpl in Hrun. rewrite third_pass_run in Hrun by done. by simplify_eq.
Qed.

Lemma Analyze_welltyped IsSystemNamespace EqualFold order c :
  podsWellTyped c →
  ∃ m, forEach (Pods c) Analyze_func1 ∅ = Some m ∧
    Analyze IsSystemNamespace EqualFold order c =
      Some ((Namespaces c ≫=
               namespaceReports IsSystemNamespace m (rangeAppend (order m))) ++
            (Pods c ≫=
               podReports EqualFold
                 (injectedAfter IsSystemNamespace m (Namespaces c) ∅))).
Proof.
  intros Hty. destruct (first_pass_total (Pods c) ∅ Hty) as [m Hm].
  exists m. split; [done|].
  rewrite Analyze_passes, Hm. simpl. by rewrite third_pass_run.
Qed.

(** The injected set of a pass that starts empty: membership, and the test
    the third pass makes. *)
Lemma injectedAfter_dom IsSystemNamespace controlPlaneRevisions namespaces name :
  index false
    (injectedAfter IsSystemNamespace controlPlaneRevisions namespaces ∅) name = true ↔
  name ∈ dom (injectedAfter IsSystemNamespace controlPlaneRevisions namespaces ∅).
Proof.
  pose proof (second_pass_run IsSystemNamespace controlPlaneRevisions []
                namespaces (∅, [])) as Hrun.
  apply (second_pass_values _ _ _ _ _ name Hrun).
Qed.

Lemma injectedAfter_elem IsSystemNamespace controlPlaneRevisions namespaces name :
  name ∈ dom (injectedAfter IsSystemNamespace controlPlaneRevisions namespaces ∅) ↔
  ∃ r, r ∈ namespaces ∧ FullName (Metadata r) = name ∧
       namespaceInjected IsSystemNamespace controlPlaneRevisions r = true.
Proof.
  rewrite <- injectedAfter_dom, injectedAfter_index. split; [|by right].
  intros [H|H]; [|done]. unfold index in H. by rewrite lookup_empty in H.
Qed.

(** Two maps that only store [true] and have the same keys are equal. *)
Lemma map_true_eq (m1 m2 : gmap string bool) :
  (∀ k b, m1 !! k = Some b → b = true) →
  (∀ k b, m2 !! k = Some b → b = true) →
  (∀ k, k ∈ dom m1 ↔ k ∈ dom m2) → m1 = m2.
Proof.
  intros H1 H2 Hdom. apply map_eq. intros k. specialize (Hdom k).
  rewrite !elem_of_dom in Hdom.
  destruct (m1 !! k) as [b1|] eqn:E1, (m2 !! k) as [b2|] eqn:E2.
  - by rewrite (H1 _ _ E1), (H2 _ _ E2).
  - destruct Hdom as [Hd _]. by destruct Hd.
  - destruct Hdom as [_ Hd]. by destruct Hd.
  - done.
Qed.

Lemma injectedAfter_values IsSystemNamespace controlPlaneRevisions namespaces k b :
  injectedAfter IsSystemNamespace controlPlaneRevisions namespaces ∅ !! k = Some b →
  b = true.
Proof.
  intros Hk.
  assert (k ∈ dom (injectedAfter IsSystemNamespace controlPlaneRevisions
                     namespaces ∅)) as Hin by (by eapply elem_of_dom_2).
  apply injectedAfter_dom in Hin. unfold index in Hin. rewrite Hk in Hin. done.
Qed.

(** ** Further properties of a run *)

Section Extras.
Variable IsSystemNamespace : string → bool.
Variable EqualFold : string → string → bool.

(** X1. A run ends without a panic exactly when every resource of the pod
    collection carries a pod, whatever the namespaces and whatever order the
    runtime enumerates the map in. *)
Theorem Analyze_panics (order : gmap string bool → list string) (c : Context) :
  is_Some (Analyze IsSystemNamespace EqualFold order c) ↔ podsWellTyped c.
Proof.
  split.
  - intros [reports Hrun]. by apply Analyze_Some_inv in Hrun as [? _].
  - intros Hty.
    destruct (Analyze_welltyped IsSystemNamespace EqualFold order c Hty)
      as (m & _ & ->).
    by eexists.
Qed.

(** X2. The reports of a run are the reports of the namespaces, in the
    order of the namespace collection, followed by the reports of the pods,
    in the order of the pod collection; every resource contributes at most
    one report. *)
Theorem reports_in_snapshot_order (order : gmap string bool → list string)
    (c : Context) :
  podsWellTyped c →
  ∃ controlPlaneRevisions,
    ForEach c collections.K8SCoreV1Pods Analyze_func1 ∅
      = Some controlPlaneRevisions ∧
    Analyze IsSystemNamespace EqualFold order c =
      Some ((Namespaces c ≫=
               namespaceReports IsSystemNamespace controlPlaneRevisions
                 (rangeAppend (order controlPlaneRevisions))) ++
            (Pods c ≫=
               podReports EqualFold
                 (injectedAfter IsSystemNamespace controlPlaneRevisions
                    (Namespaces c) ∅))) ∧
    (∀ revisions r,
       length (namespaceReports IsSystemNamespace controlPlaneRevisions
                 revisions r) ≤ 1) ∧
    (∀ injectedNamespaces r,
       length (podReports EqualFold injectedNamespaces r) ≤ 1).
Proof.
  intros Hty.
  destruct (Analyze_welltyped IsSystemNamespace EqualFold order c Hty)
    as (m & Hm & Hrun).
  exists m. split_and!; [done|done| |].
  - intros. apply namespaceReports_short.
  - intros. apply podReports_short.
Qed.

(** X3. Every report of a run is filed under a collection the analyzer
    declares as an input. A report filed under the namespaces is one of the
    three namespace diagnostics, about a namespace resource of the snapshot
    that is no system namespace, and carries the name of that namespace; a
    pod-missing-proxy report is filed under the pods and is about a pod
    resource of the snapshot. *)
Theorem reports_well_formed (order : gmap string bool → list string)
    (c : Context) (reports : Reports) (col : collections.Name) (m : msg.Message) :
  Analyze IsSystemNamespace EqualFold order c = Some reports →
  (col, m) ∈ reports →
  col ∈ Analyzer.Inputs Analyzer.Metadata ∧
  match m with
  | msg.NewNamespaceNotInjected r ns ns'
  | msg.NewNamespaceMultipleInjectionLabels r ns ns' =>
      col = collections.K8SCoreV1Namespaces ∧ r ∈ Namespaces c ∧
      IsSystemNamespace (FullName (Metadata r)) = false ∧
      ns = FullName (Metadata r) ∧ ns' = FullName (Metadata r)
  | msg.NewNamespaceInvalidInjectorRevision r revision ns _ =>
      col = collections.K8SCoreV1Namespaces ∧ r ∈ Namespaces c ∧
      IsSystemNamespace (FullName (Metadata r)) = false ∧
      Labels (Metadata r) !! RevisionLabel = Some revision ∧
      ns = FullName (Metadata r)
  | msg.NewPodMissingProxy r =>
      col = collections.K8SCoreV1Pods ∧ r ∈ Pods c ∧
      is_Some (asPod (Message r))
  end.
Proof.
  intros (_ & cpr & _ & ->)%Analyze_Some_inv Hin.
  split; [destruct col; [left|right; left]|].
  apply elem_of_app in Hin as [Hin|Hin];
    apply list_elem_of_bind in Hin as (r & Hrep & Hr).
  - apply namespaceReports_spec in Hrep
      as (Hsys & [(_ & _ & Heq)|[(_ & _ & Heq)|(_ & rev & Hrev & _ & Heq)]]);
      simplify_eq; by split_and!.
  - apply podReports_spec in Hrep as (Heq & pod & Hm & _). simplify_eq.
    split_and!; [done|done|]. rewrite Hm. by eexists.
Qed.

(** X4. The second pass ends, and the names in its injected set are exactly
    the names of the namespace resources outside the system namespaces that
    either carry a revision label with a revision of the control plane and
    no legacy label other than the empty one, or carry the legacy label
    with the value ["enabled"] and no revision label. *)
Theorem injected_set (controlPlaneRevisions : gmap string bool)
    (revisions : list string) (c : Context) :
  ∃ injectedNamespaces reports,
    ForEach c collections.K8SCoreV1Namespaces
      (Analyze_func2 IsSystemNamespace controlPlaneRevisions revisions) (∅, [])
      = Some (injectedNamespaces, reports) ∧
    ∀ name, name ∈ dom injectedNamespaces ↔
      ∃ r, r ∈ Namespaces c ∧ FullName (Metadata r) = name ∧
        IsSystemNamespace name = false ∧
        ((index "" (Labels (Metadata r)) InjectionLabelName = "" ∧
          ∃ revision, Labels (Metadata r) !! RevisionLabel = Some revision ∧
                      revision ∈ dom controlPlaneRevisions) ∨
         (Labels (Metadata r) !! InjectionLabelName
            = Some InjectionLabelEnableValue ∧
          Labels (Metadata r) !! RevisionLabel = None)).
Proof.
  eexists _, _. split; [apply second_pass_run|]. simpl.
  intros name. rewrite injectedAfter_elem. split.
  - intros (r & Hin & Hname & [Hsys Hrow]%namespaceInjected_spec). exists r.
    rewrite <- Hname. by split_and!.
  - intros (r & Hin & Hname & Hsys & Hrow). exists r. split_and!; [done|done|].
    apply namespaceInjected_spec. by rewrite Hname.
Qed.

(** X5. In a run that ends, a pod resource is reported as missing its proxy
    exactly when it is in the pod collection, the namespace of the pod is in
    the injected set of the second pass, the pod does not opt out by
    annotation, and the image found by the loop over its containers is
    empty. *)
Theorem pod_report_iff (order : gmap string bool → list string) (c : Context)
    (controlPlaneRevisions injectedNamespaces : gmap string bool)
    (reports namespaceReports : Reports) (r : Instance) :
  Analyze IsSystemNamespace EqualFold order c = Some reports →
  ForEach c collections.K8SCoreV1Pods Analyze_func1 ∅
    = Some controlPlaneRevisions →
  ForEach c collections.K8SCoreV1Namespaces
    (Analyze_func2 IsSystemNamespace controlPlaneRevisions
       (rangeAppend (order controlPlaneRevisions))) (∅, [])
    = Some (injectedNamespaces, namespaceReports) →
  (collections.K8SCoreV1Pods, msg.NewPodMissingProxy r) ∈ reports ↔
  r ∈ Pods c ∧
  ∃ pod, Message r = Pod pod ∧
    v1.Namespace pod ∈ dom injectedNamespaces ∧
    EqualFold (index "" (v1.Annotations pod) SidecarInject_Name) "false" = false ∧
    proxyImageOf (v1.Containers (v1.Spec pod)) "" = "".
Proof.
  intros (_ & cpr & Hcpr & ->)%Analyze_Some_inv Hm Hns.
  unfold ForEach in Hm, Hns. simpl in Hm, Hns. rewrite Hcpr in Hm. simplify_eq.
  rewrite second_pass_run in Hns. simplify_eq.
  rewrite elem_of_app, !list_elem_of_bind. split.
  - intros [(ns & Hrep & _)|(r' & Hrep & Hr')].
    + apply namespaceReports_spec in Hrep
        as (_ & [(_ & _ & ?)|[(_ & _ & ?)|(_ & ? & _ & _ & ?)]]); done.
    + apply podReports_spec in Hrep as ([= ->] & pod & Hm & Hinj & Hfold & Himg).
      split; [done|]. exists pod. split_and!; try done.
      by apply injectedAfter_dom.
  - intros (Hr & pod & Hm & Hinj & Hfold & Himg). right. exists r.
    split; [|done]. apply podReports_spec. split; [done|]. exists pod.
    split_and!; try done. by apply injectedAfter_dom.
Qed.

(** X6. A pod whose namespace the system-namespace predicate accepts is
    never reported, whatever its containers and whatever the labels of the
    namespaces. *)
Theorem system_namespace_pods_exempt (order : gmap string bool → list string)
    (c : Context) (reports : Reports) (r : Instance) (pod : v1.Pod) :
  Analyze IsSystemNamespace EqualFold order c = Some reports →
  Message r = Pod pod →
  IsSystemNamespace (v1.Namespace pod) = true →
  (collections.K8SCoreV1Pods, msg.NewPodMissingProxy r) ∉ reports.
Proof.
  intros (_ & cpr & Hcpr & ->)%Analyze_Some_inv Hm Hsys.
  rewrite elem_of_app, !list_elem_of_bind.
  intros [(ns & Hrep & _)|(r' & Hrep & Hr')].
  - apply namespaceReports_spec in Hrep
      as (_ & [(_ & _ & ?)|[(_ & _ & ?)|(_ & ? & _ & _ & ?)]]); done.
  - apply podReports_spec in Hrep as ([= ->] & pod' & Hm' & Hinj & _).
    rewrite Hm in Hm'. simplify_eq.
    apply injectedAfter_dom, injectedAfter_elem in Hinj
      as (ns & _ & Hname & [Hns _]%namespaceInjected_spec).
    congruence.
Qed.

(** X7. A pod whose namespace is not among the namespace resources of the
    snapshot is never reported. *)
Theorem unlisted_namespace_pods_exempt (order : gmap string bool → list string)
    (c : Context) (reports : Reports) (r : Instance) (pod : v1.Pod) :
  Analyze IsSystemNamespace EqualFold order c = Some reports →
  Message r = Pod pod →
  (∀ ns, ns ∈ Namespaces c → FullName (Metadata ns) ≠ v1.Namespace pod) →
  (collections.K8SCoreV1Pods, msg.NewPodMissingProxy r) ∉ reports.
Proof.
  intros (_ & cpr & Hcpr & ->)%Analyze_Some_inv Hm Hno.
  rewrite elem_of_app, !list_elem_of_bind.
  intros [(ns & Hrep & _)|(r' & Hrep & Hr')].
  - apply namespaceReports_spec in Hrep
      as (_ & [(_ & _ & ?)|[(_ & _ & ?)|(_ & ? & _ & _ & ?)]]); done.
  - apply podReports_spec in Hrep as ([= ->] & pod' & Hm' & Hinj & _).
    rewrite Hm in Hm'. simplify_eq.
    apply injectedAfter_dom, injectedAfter_elem in Hinj as (ns & Hin & Hname & _).
    by apply (Hno ns).
Qed.

(** X8. In a run that ends, the reports filed under the namespaces are
    exactly these: the not-injected report for every namespace resource
    outside the system namespaces without a revision label and without a
    legacy label other than the empty one; the multiple-labels report for
    every one with a revision label and a non-empty legacy label; the
    invalid-revision report for every one with a revision label that is no
    revision of the control plane and without a legacy label other than the
    empty one. *)
Theorem namespace_reports_iff (order : gmap string bool → list string)
    (c : Context) (controlPlaneRevisions : gmap string bool)
    (reports : Reports) (m : msg.Message) :
  Analyze IsSystemNamespace EqualFold order c = Some reports →
  ForEach c collections.K8SCoreV1Pods Analyze_func1 ∅
    = Some controlPlaneRevisions →
  (collections.K8SCoreV1Namespaces, m) ∈ reports ↔
  ∃ r, r ∈ Namespaces c ∧
    IsSystemNamespace (FullName (Metadata r)) = false ∧
    ((index "" (Labels (Metadata r)) InjectionLabelName = "" ∧
      Labels (Metadata r) !! RevisionLabel = None ∧
      m = msg.NewNamespaceNotInjected r
            (FullName (Metadata r)) (FullName (Metadata r))) ∨
     (index "" (Labels (Metadata r)) InjectionLabelName ≠ "" ∧
      is_Some (Labels (Metadata r) !! RevisionLabel) ∧
      m = msg.NewNamespaceMultipleInjectionLabels r
            (FullName (Metadata r)) (FullName (Metadata r))) ∨
     (index "" (Labels (Metadata r)) InjectionLabelName = "" ∧
      ∃ revision, Labels (Metadata r) !! RevisionLabel = Some revision ∧
        (revision ∉ dom controlPlaneRevisions) ∧
        m = msg.NewNamespaceInvalidInjectorRevision r revision
              (FullName (Metadata r))
              (Join (rangeAppend (order controlPlaneRevisions)) ", "))).
Proof.
  intros (_ & cpr & Hcpr & ->)%Analyze_Some_inv Hm.
  unfold ForEach in Hm. simpl in Hm. rewrite Hcpr in Hm. simplify_eq.
  rewrite elem_of_app, !list_elem_of_bind. split.
  - intros [(r & Hrep & Hr)|(r & Hrep & _)].
    + exists r. split; [done|].
      apply namespaceReports_spec in Hrep as (Hsys & Hrow). split; [done|].
      destruct Hrow as [(? & ? & ?)|[(? & ? & ?)|(? & rev & ? & ?%not_elem_of_dom & ?)]];
        simplify_eq; [by left|right; by left|].
      right. right. split; [done|]. by exists rev.
    + by apply podReports_spec in Hrep as (? & _).
  - intros (r & Hr & Hsys & Hrow). left. exists r. split; [|done].
    apply namespaceReports_spec. split; [done|].
    destruct Hrow as [(? & ? & ->)|[(? & ? & ->)|(? & rev & ? & ?%not_elem_of_dom & ->)]];
      [by left|right; by left|].
    right. right. split; [done|]. by exists rev.
Qed.

(** X9. The first pass looks at which pod resources the snapshot has, not
    at their order or at how often one is listed: two pod collections with
    the same resources give the same map of revisions, or both stop the
    run. *)
Theorem first_pass_order_irrelevant (c c' : Context) :
  (∀ r, r ∈ Pods c ↔ r ∈ Pods c') →
  ForEach c collections.K8SCoreV1Pods Analyze_func1 ∅ =
    ForEach c' collections.K8SCoreV1Pods Analyze_func1 ∅.
Proof.
  intros Hsame. unfold ForEach. simpl.
  destruct (forEach (Pods c) Analyze_func1 ∅) as [m|] eqn:Hm,
           (forEach (Pods c') Analyze_func1 ∅) as [m'|] eqn:Hm'.
  - f_equal. apply map_true_eq.
    + intros k b. by apply (first_pass_values _ _ _ _ Hm).
    + intros k b. by apply (first_pass_values _ _ _ _ Hm').
    + intros k. rewrite (first_pass_dom _ _ _ k Hm), (first_pass_dom _ _ _ k Hm').
      split; (intros [?|(r & pod & Hin & ?)]; [by left|]); right;
        exists r, pod; (split; [by apply Hsame|done]).
  - exfalso.
    assert (is_Some (forEach (Pods c') Analyze_func1 ∅)) as [? ?]; [|congruence].
    apply first_pass_total, Forall_forall. intros r Hr%Hsame. revert r Hr.
    apply Forall_forall, (first_pass_welltyped _ ∅). rewrite Hm. by eexists.
  - exfalso.
    assert (is_Some (forEach (Pods c) Analyze_func1 ∅)) as [? ?]; [|congruence].
    apply first_pass_total, Forall_forall. intros r Hr%Hsame. revert r Hr.
    apply Forall_forall, (first_pass_welltyped _ ∅). rewrite Hm'. by eexists.
  - done.
Qed.

(** X10. The order of the namespace collection only decides the order of
    the namespace reports: two snapshots with the same pods whose namespace
    collections are rearrangements of one another either both stop the run,
    or give the same injected set, the same pod reports after the namespace
    reports, and namespace reports that are rearrangements of one another. *)
Theorem namespace_order_irrelevant (order : gmap string bool → list string)
    (c c' : Context) :
  Namespaces c ≡ₚ Namespaces c' → Pods c = Pods c' →
  (Analyze IsSystemNamespace EqualFold order c = None ∧
   Analyze IsSystemNamespace EqualFold order c' = None) ∨
  ∃ namespaceReports namespaceReports' podReports,
    Analyze IsSystemNamespace EqualFold order c
      = Some (namespaceReports ++ podReports) ∧
    Analyze IsSystemNamespace EqualFold order c'
      = Some (namespaceReports' ++ podReports) ∧
    namespaceReports ≡ₚ namespaceReports' ∧
    Forall (λ rep, rep.1 = collections.K8SCoreV1Namespaces) namespaceReports ∧
    Forall (λ rep, rep.1 = collections.K8SCoreV1Pods) podReports.
Proof.
  intros Hperm Hpods. rewrite !Analyze_passes, <- Hpods.
  destruct (forEach (Pods c) Analyze_func1 ∅) as [m|] eqn:Hm; [|by left].
  simpl. right.
  assert (podsWellTyped c) as Hty.
  { apply (first_pass_welltyped (Pods c) ∅). rewrite Hm. by eexists. }
  rewrite !third_pass_run by done.
  assert (injectedAfter IsSystemNamespace m (Namespaces c') ∅ =
          injectedAfter IsSystemNamespace m (Namespaces c) ∅) as ->.
  { apply map_true_eq; try apply injectedAfter_values.
    intros k. rewrite !injectedAfter_elem.
    split; intros (r & Hin & ?); exists r; (split; [|done]).
    - by rewrite Hperm.
    - by rewrite <- Hperm. }
  eexists _, _, _. split_and!; [done|done| | |].
  - by rewrite Hperm.
  - apply Forall_forall. intros rep (r & Hrep & _)%list_elem_of_bind.
    apply namespaceReports_spec in Hrep
      as (_ & [(_ & _ & ->)|[(_ & _ & ->)|(_ & ? & _ & _ & ->)]]); done.
  - apply Forall_forall. intros rep (r & Hrep & _)%list_elem_of_bind.
    by apply podReports_spec in Hrep as (-> & _).
Qed.

(** X11. When no pod of the control plane carries a revision label, the
    map of revisions is empty and every namespace outside the system
    namespaces that asks for a revision, with no legacy label other than
    the empty one, is reported with an empty list of known revisions. *)
Theorem no_control_plane_revision (order : gmap string bool → list string)
    (c : Context) :
  RangeOrder order →
  podsWellTyped c →
  (∀ r pod, r ∈ Pods c → Message r = Pod pod → isControlPlane pod = true →
     Labels (Metadata r) !! RevisionLabel = None) →
  ForEach c collections.K8SCoreV1Pods Analyze_func1 ∅ = Some ∅ ∧
  ∀ r revision s,
    IsSystemNamespace (FullName (Metadata r)) = false →
    index "" (Labels (Metadata r)) InjectionLabelName = "" →
    Labels (Metadata r) !! RevisionLabel = Some revision →
    Analyze_func2 IsSystemNamespace ∅ (rangeAppend (order ∅)) r s =
      Some (true, (s.1, s.2 ++ [(collections.K8SCoreV1Namespaces,
        msg.NewNamespaceInvalidInjectorRevision r revision
          (FullName (Metadata r)) "")])).
Proof.
  intros Hord Hty Hno. split.
  - destruct (first_pass_total (Pods c) ∅ Hty) as [m Hm]. unfold ForEach. simpl.
    rewrite Hm. f_equal. apply dom_empty_inv_L, set_eq. intros k.
    rewrite (first_pass_dom _ _ _ k Hm), dom_empty_L. split; [|done].
    intros [?|(r & pod & Hin & Hmsg & Hcp & Hrev)]; [done|].
    by rewrite (Hno r pod Hin Hmsg Hcp) in Hrev.
  - intros r revision s Hsys Hleg Hrev.
    rewrite (func2_invalid _ _ _ _ _ revision) by done. simpl.
    unfold index at 1. rewrite Hrev. simpl. rewrite rangeAppend_id.
    pose proof (Hord ∅) as Hperm. rewrite map_to_list_empty in Hperm.
    apply Permutation_nil_r in Hperm. by rewrite Hperm.
Qed.

(** X12. A namespace without a revision label is judged without a look at
    the control plane: the visit does the same whatever the map of
    revisions and the slice of known revisions are. *)
Theorem legacy_ignores_control_plane
    (controlPlaneRevisions controlPlaneRevisions' : gmap string bool)
    (revisions revisions' : list string) (r : Instance)
    (s : gmap string bool * Reports) :
  Labels (Metadata r) !! RevisionLabel = None →
  Analyze_func2 IsSystemNamespace controlPlaneRevisions revisions r s =
    Analyze_func2 IsSystemNamespace controlPlaneRevisions' revisions' r s.
Proof.
  intros Hrev.
  destruct (IsSystemNamespace (FullName (Metadata r))) eqn:Hsys.
  { by rewrite !func2_system. }
  destruct (decide (index "" (Labels (Metadata r)) InjectionLabelName = ""))
    as [Hleg|Hleg].
  { by rewrite !func2_absent. }
  destruct (decide (index "" (Labels (Metadata r)) InjectionLabelName
                    = InjectionLabelEnableValue)) as [Hen|Hen].
  - assert (Labels (Metadata r) !! InjectionLabelName
            = Some InjectionLabelEnableValue) as Hlab.
    { unfold index in Hen, Hleg.
      destruct (Labels (Metadata r) !! InjectionLabelName); simpl in *;
        by simplify_eq. }
    by rewrite !func2_enabled.
  - by rewrite !func2_disabled.
Qed.

(** X13. The slice of known revisions lists every key of the map of
    revisions exactly once, however many pods of the control plane share a
    revision and whatever order the runtime picks. *)
Theorem known_revisions_listed_once (order : gmap string bool → list string)
    (controlPlaneRevisions : gmap string bool) :
  RangeOrder order →
  NoDup (rangeAppend (order controlPlaneRevisions)) ∧
  length (rangeAppend (order controlPlaneRevisions)) = size controlPlaneRevisions ∧
  ∀ revision, revision ∈ rangeAppend (order controlPlaneRevisions) ↔
              revision ∈ dom controlPlaneRevisions.
Proof.
  intros Hord. rewrite rangeAppend_id. split_and!.
  - rewrite (Hord controlPlaneRevisions). apply NoDup_fst_map_to_list.
  - by rewrite (Hord controlPlaneRevisions), length_fmap, length_map_to_list.
  - intros revision.
    rewrite (Hord controlPlaneRevisions), elem_of_dom, list_elem_of_fmap. split.
    + intros [[k v] [-> Hin]]. apply elem_of_map_to_list in Hin. by eexists.
    + intros [v Hv]. exists (revision, v). split; [done|].
      by apply elem_of_map_to_list.
Qed.

(** X14. More revisions in the control plane never take a namespace out of
    the injected set, and never bring a new invalid-revision report: a
    namespace the second pass adds stays added, and one reported against
    the larger map is reported against the smaller one. *)
Theorem more_revisions_monotone
    (controlPlaneRevisions controlPlaneRevisions' : gmap string bool)
    (revisions revisions' : list string) (r : Instance) :
  dom controlPlaneRevisions ⊆ dom controlPlaneRevisions' →
  (namespaceInjected IsSystemNamespace controlPlaneRevisions r = true →
   namespaceInjected IsSystemNamespace controlPlaneRevisions' r = true) ∧
  (namespaceReports IsSystemNamespace controlPlaneRevisions' revisions' r ≠ [] →
   namespaceReports IsSystemNamespace controlPlaneRevisions revisions r ≠ []).
Proof.
  intros Hsub. split.
  - rewrite !namespaceInjected_spec.
    intros [Hsys [(Hleg & rev & Hrev & Hin)|Hen]]; (split; [done|]); [left|by right].
    split; [done|]. exists rev. split; [done|]. by apply Hsub.
  - intros Hne.
    destruct (namespaceReports IsSystemNamespace controlPlaneRevisions' revisions' r)
      as [|rep' l'] eqn:E'; [done|]. clear Hne.
    assert (rep' ∈ namespaceReports IsSystemNamespace controlPlaneRevisions'
                     revisions' r) as Hrep' by (rewrite E'; left).
    cut (∃ rep, rep ∈ namespaceReports IsSystemNamespace controlPlaneRevisions
                        revisions r).
    { intros [rep Hrep] Hnil. rewrite Hnil in Hrep. by apply elem_of_nil in Hrep. }
    apply namespaceReports_spec in Hrep' as (Hsys & Hrow).
    destruct Hrow as [(? & ? & ?)|[(? & ? & ?)|(? & rev & ? & Hcp & ?)]];
      eexists; apply namespaceReports_spec; (split; [done|]).
    + by left.
    + right. by left.
    + right. right. split; [done|]. exists rev. split_and!; [done| |done].
      apply not_elem_of_dom. intros Hin%Hsub. by apply not_elem_of_dom in Hcp.
Qed.

End Extras.

(** The run of the snapshot with two pods of the control plane on one
    revision. *)
Lemma sharedRevision_run :
  analyze ascending sharedRevision = Some sharedRevisionReports.
Proof. reflexivity. Qed.

Lemma sharedRevision_welltyped : podsWellTyped sharedRevision.
Proof. repeat constructor; by eexists. Qed.

Lemma reports_in_snapshot_order_witness :
  podsWellTyped sharedRevision ∧ is_Some (analyze ascending sharedRevision).
Proof.
  split; [exact sharedRevision_welltyped|].
  destruct (reports_in_snapshot_order kubeNamespaces EqualFoldASCII ascending
              sharedRevision sharedRevision_welltyped) as (m & _ & Hrun & _).
  unfold analyze. rewrite Hrun. by eexists.
Defined.

Lemma reports_well_formed_witness :
  analyze ascending sharedRevision = Some sharedRevisionReports ∧
  unlabelled ∈ Namespaces sharedRevision ∧
  kubeNamespaces (FullName (Metadata unlabelled)) = false.
Proof.
  split; [exact sharedRevision_run|].
  assert ((collections.K8SCoreV1Namespaces,
           msg.NewNamespaceNotInjected unlabelled "ns2" "ns2")
          ∈ sharedRevisionReports) as Hin by (right; left).
  destruct (reports_well_formed kubeNamespaces EqualFoldASCII ascending
              sharedRevision sharedRevisionReports _ _ sharedRevision_run Hin)
    as (_ & _ & Hr & Hsys & _).
  by split.
Defined.

Lemma pod_report_iff_witness :
  analyze ascending sharedRevision = Some sharedRevisionReports ∧
  ((collections.K8SCoreV1Pods,
    msg.NewPodMissingProxy (podResource "ns1" "app" [] [] []))
     ∈ sharedRevisionReports ↔
   podResource "ns1" "app" [] [] [] ∈ Pods sharedRevision ∧
   ∃ pod, Message (podResource "ns1" "app" [] [] []) = Pod pod ∧
     v1.Namespace pod ∈ dom ({["ns1" := true]} : gmap string bool) ∧
     EqualFoldASCII (index "" (v1.Annotations pod) SidecarInject_Name) "false"
       = false ∧
     proxyImageOf (v1.Containers (v1.Spec pod)) "" = "").
Proof.
  split; [exact sharedRevision_run|].
  eapply (pod_report_iff kubeNamespaces EqualFoldASCII ascending sharedRevision
            {["canary" := true]});
    [exact sharedRevision_run|reflexivity|reflexivity].
Defined.

Lemma system_namespace_pods_exempt_witness :
  kubeNamespaces "kube-system" = true ∧
  (collections.K8SCoreV1Pods,
   msg.NewPodMissingProxy (podResource "kube-system" "dns" [] [] []))
    ∉ sharedRevisionReports.
Proof.
  split; [reflexivity|].
  eapply (system_namespace_pods_exempt kubeNamespaces EqualFoldASCII ascending
            sharedRevision);
    [exact sharedRevision_run|reflexivity|reflexivity].
Defined.

Lemma unlisted_namespace_pods_exempt_witness :
  (∀ ns, ns ∈ Namespaces sharedRevision → FullName (Metadata ns) ≠ "elsewhere") ∧
  (collections.K8SCoreV1Pods,
   msg.NewPodMissingProxy (podResource "elsewhere" "job" [] [] []))
    ∉ sharedRevisionReports.
Proof.
  assert (∀ ns, ns ∈ Namespaces sharedRevision →
                FullName (Metadata ns) ≠ "elsewhere") as Hno.
  { intros ns Hin.
    repeat (apply elem_of_cons in Hin as [->|Hin]; [discriminate|]).
    by apply elem_of_nil in Hin. }
  split; [exact Hno|].
  eapply (unlisted_namespace_pods_exempt kubeNamespaces EqualFoldASCII ascending
            sharedRevision);
    [exact sharedRevision_run|reflexivity|exact Hno].
Defined.

Lemma namespace_reports_iff_witness :
  analyze ascending sharedRevision = Some sharedRevisionReports ∧
  ∃ r, r ∈ Namespaces sharedRevision ∧
       kubeNamespaces (FullName (Metadata r)) = false.
Proof.
  split; [exact sharedRevision_run|].
  assert ((collections.K8SCoreV1Namespaces,
           msg.NewNamespaceNotInjected unlabelled "ns2" "ns2")
          ∈ sharedRevisionReports) as Hin by (right; left).
  apply (namespace_reports_iff kubeNamespaces EqualFoldASCII ascending
           sharedRevision {["canary" := true]} sharedRevisionReports _
           sharedRevision_run eq_refl) in Hin as (r & Hr & Hsys & _).
  by exists r.
Defined.

Lemma first_pass_order_irrelevant_witness :
  (∀ r, r ∈ Pods sharedRevision ↔ r ∈ Pods sharedRevisionReversed) ∧
  ForEach sharedRevisionReversed collections.K8SCoreV1Pods Analyze_func1 ∅
    = Some {["canary" := true]}.
Proof.
  assert (∀ r, r ∈ Pods sharedRevision ↔ r ∈ Pods sharedRevisionReversed) as Hsame.
  { intros r. symmetry. apply elem_of_reverse. }
  split; [exact Hsame|].
  rewrite <- (first_pass_order_irrelevant sharedRevision sharedRevisionReversed Hsame).
  reflexivity.
Defined.

Lemma namespace_order_irrelevant_witness :
  Namespaces sharedRevisionShuffled ≡ₚ Namespaces sharedRevision ∧
  ∃ reports, analyze ascending sharedRevisionShuffled = Some reports ∧
             length reports = 3.
Proof.
  assert (Namespaces sharedRevisionShuffled ≡ₚ Namespaces sharedRevision) as Hperm
    by apply Permutation_cons_append.
  split; [exact Hperm|].
  destruct (namespace_order_irrelevant kubeNamespaces EqualFoldASCII ascending
              sharedRevisionShuffled sharedRevision Hperm eq_refl)
    as [[_ Hnone]|(nss & nss' & pods & Hrun & Hrun' & Hnss & _)].
  - exfalso. pose proof sharedRevision_run as H. unfold analyze in H. congruence.
  - exists (nss ++ pods). split; [exact Hrun|].
    pose proof sharedRevision_run as H. unfold analyze in H. rewrite Hrun' in H.
    rewrite length_app, Hnss, <- length_app.
    injection H as ->. reflexivity.
Defined.

Lemma no_control_plane_revision_witness :
  RangeOrder descending ∧ podsWellTyped noControlPlane ∧
  Analyze_func2 kubeNamespaces ∅ (rangeAppend (descending ∅)) requestsUnknown
      (∅, []) =
    Some (true, (∅, [(collections.K8SCoreV1Namespaces,
      msg.NewNamespaceInvalidInjectorRevision requestsUnknown "c" "ns" "")])).
Proof.
  assert (podsWellTyped noControlPlane) as Hty by (repeat constructor; by eexists).
  split_and!; [exact RangeOrder_descending|exact Hty|].
  apply (proj2 (no_control_plane_revision kubeNamespaces descending noControlPlane
                  RangeOrder_descending Hty
                  ltac:(intros r pod Hin Hm Hcp;
                        apply elem_of_cons in Hin as [->|Hin]; [reflexivity|];
                        apply elem_of_cons in Hin as [->|Hin];
                          [injection Hm as <-; discriminate Hcp|];
                        by apply elem_of_nil in Hin))
               requestsUnknown "c" (∅, []));
    reflexivity.
Defined.

Lemma legacy_ignores_control_plane_witness :
  Labels (Metadata emptyLegacy) !! RevisionLabel = None ∧
  Analyze_func2 kubeNamespaces ∅ [] emptyLegacy (∅, []) =
    Analyze_func2 kubeNamespaces {["canary" := true]} ["canary"] emptyLegacy (∅, []).
Proof.
  split; [reflexivity|].
  apply (legacy_ignores_control_plane kubeNamespaces). reflexivity.
Defined.

Lemma known_revisions_listed_once_witness :
  RangeOrder descending ∧
  NoDup (rangeAppend (descending {["a" := true; "b" := true]})).
Proof.
  split; [exact RangeOrder_descending|].
  apply (known_revisions_listed_once descending {["a" := true; "b" := true]}
           RangeOrder_descending).
Defined.

Lemma more_revisions_monotone_witness :
  dom (∅ : gmap string bool) ⊆ dom ({["canary" := true]} : gmap string bool) ∧
  (namespaceReports kubeNamespaces {["canary" := true]} ["canary"] requestsUnknown
     ≠ [] →
   namespaceReports kubeNamespaces ∅ [] requestsUnknown ≠ []).
Proof.
  assert (dom (∅ : gmap string bool) ⊆ dom ({["canary" := true]} : gmap string bool))
    as Hsub.
  { intros k Hk. rewrite dom_empty_L in Hk. by apply not_elem_of_empty in Hk. }
  split; [exact Hsub|].
  apply (more_revisions_monotone kubeNamespaces ∅ {["canary" := true]} []
           ["canary"] requestsUnknown Hsub).
Defined.

(** ** Two runs on one snapshot *)

Section Runs.
Variable IsSystemNamespace : string → bool.
Variable EqualFold : string → string → bool.

(** The reports of a namespace under two slices that hold the revisions
    [known] agree up to the order of the known revisions. *)
Lemma namespaceReports_related controlPlaneRevisions revisions1 revisions2
    known r :
  revisions1 ≡ₚ known → revisions2 ≡ₚ known →
  Forall2 (sameUpToKnownOrder known)
    (namespaceReports IsSystemNamespace controlPlaneRevisions revisions1 r)
    (namespaceReports IsSystemNamespace controlPlaneRevisions revisions2 r).
Proof.
  intros H1 H2.
  destruct (IsSystemNamespace (FullName (Metadata r))) eqn:Hsys.
  - destruct (system_contribution IsSystemNamespace controlPlaneRevisions r Hsys)
      as [_ Hnil].
    rewrite !Hnil. constructor.
  - destruct (func2_outcome IsSystemNamespace controlPlaneRevisions r Hsys)
      as [o Ho].
    destruct (outcome_contribution IsSystemNamespace controlPlaneRevisions r o Ho)
      as [_ Hrep].
    rewrite !Hrep. destruct o; simpl.
    + constructor; [by left|constructor].
    + constructor; [by left|constructor].
    + constructor; [|constructor].
      right. by eexists r, _, _, revisions1, revisions2.
    + constructor.
    + constructor.
Qed.

(** C10, as the analyzer has it. Two runs on one snapshot either both stop
    with a panic or report the same diagnostics in the same order, where an
    invalid-revision report of one run may join the known revisions, the
    same in both runs, in another order than its counterpart does. The two
    sequences are identical when the runtime enumerates the map of
    revisions in the same order in both runs, and in any case when the
    control plane has at most one revision. *)
Theorem analysis_deterministic (order1 order2 : gmap string bool → list string)
    (c : Context) :
  RangeOrder order1 → RangeOrder order2 →
  ((Analyze IsSystemNamespace EqualFold order1 c = None ∧
    Analyze IsSystemNamespace EqualFold order2 c = None) ∨
   ∃ reports1 reports2,
     Analyze IsSystemNamespace EqualFold order1 c = Some reports1 ∧
     Analyze IsSystemNamespace EqualFold order2 c = Some reports2 ∧
     Forall2 (sameUpToKnownOrder (discoveryOrder (Pods c))) reports1 reports2) ∧
  forgetKnownAll (Analyze IsSystemNamespace EqualFold order1 c) =
    forgetKnownAll (Analyze IsSystemNamespace EqualFold order2 c) ∧
  ((∀ controlPlaneRevisions,
      ForEach c collections.K8SCoreV1Pods Analyze_func1 ∅
        = Some controlPlaneRevisions →
      order1 controlPlaneRevisions = order2 controlPlaneRevisions) →
   Analyze IsSystemNamespace EqualFold order1 c =
     Analyze IsSystemNamespace EqualFold order2 c) ∧
  (length (discoveryOrder (Pods c)) ≤ 1 →
   Analyze IsSystemNamespace EqualFold order1 c =
     Analyze IsSystemNamespace EqualFold order2 c).
Proof.
  intros Hord1 Hord2.
  assert ((∀ m, ForEach c collections.K8SCoreV1Pods Analyze_func1 ∅ = Some m →
             order1 m = order2 m) →
          Analyze IsSystemNamespace EqualFold order1 c =
            Analyze IsSystemNamespace EqualFold order2 c) as Hsame.
  { intros Heq. unfold Analyze.
    destruct (ForEach c collections.K8SCoreV1Pods Analyze_func1 ∅) as [m|];
      [|done].
    simpl. by rewrite (Heq m). }
  split_and!; [| |done|].
  - rewrite !Analyze_passes.
    destruct (forEach (Pods c) Analyze_func1 ∅) as [m|] eqn:Hm; [|by left].
    right. simpl.
    assert (podsWellTyped c) as Hty.
    { apply (first_pass_welltyped (Pods c) ∅). rewrite Hm. by eexists. }
    rewrite !third_pass_run by done.
    eexists _, _. split_and!; [done|done|].
    apply Forall2_app.
    + apply Forall2_bind, Forall_Forall2_diag, Forall_forall. intros r _.
      apply namespaceReports_related; by apply revisions_discovered.
    + apply Forall_Forall2_diag, Forall_forall. intros rep _. by left.
  - unfold Analyze, ForEach. simpl.
    destruct (forEach (Pods c) Analyze_func1 ∅) as [m|]; [|done]. simpl.
    destruct (second_pass_related IsSystemNamespace m
                (rangeAppend (order1 m)) (rangeAppend (order2 m))
                (Namespaces c)) as [[inj1 reps1] [inj2 reps2] [Hinj Hreps]|];
      [|done].
    simpl in *. subst inj2.
    destruct (third_pass_related EqualFold inj1 (Pods c) reps1 reps2 Hreps)
      as [reps1' reps2' Heq|]; simpl; [by rewrite Heq|done].
  - intros Hlen. apply Hsame. intros m Hm.
    apply (Permutation_short _ _ (discoveryOrder (Pods c))); [| |done].
    + rewrite <- (rangeAppend_id (order1 m)). by apply revisions_discovered.
    + rewrite <- (rangeAppend_id (order2 m)). by apply revisions_discovered.
Qed.

End Runs.

Lemma analysis_deterministic_witness :
  RangeOrder ascending ∧ RangeOrder descending ∧
  Forall2 (sameUpToKnownOrder ["a"; "b"])
    [(collections.K8SCoreV1Namespaces,
      msg.NewNamespaceInvalidInjectorRevision requestsUnknown "c" "ns" "a, b")]
    [(collections.K8SCoreV1Namespaces,
      msg.NewNamespaceInvalidInjectorRevision requestsUnknown "c" "ns" "b, a")].
Proof.
  split_and!; [exact RangeOrder_ascending|exact RangeOrder_descending|].
  destruct (analysis_deterministic kubeNamespaces EqualFoldASCII
              ascending descending twoRevisions
              RangeOrder_ascending RangeOrder_descending)
    as [[[Hnone _]|(reports1 & reports2 & Hrun1 & Hrun2 & Hsame)] _].
  - exfalso. revert Hnone. vm_compute. discriminate.
  - assert (Analyze kubeNamespaces EqualFoldASCII ascending twoRevisions =
              Some [(collections.K8SCoreV1Namespaces,
                msg.NewNamespaceInvalidInjectorRevision requestsUnknown
                  "c" "ns" "a, b")]) as E1 by reflexivity.
    assert (Analyze kubeNamespaces EqualFoldASCII descending twoRevisions =
              Some [(collections.K8SCoreV1Namespaces,
                msg.NewNamespaceInvalidInjectorRevision requestsUnknown
                  "c" "ns" "b, a")]) as E2 by reflexivity.
    rewrite E1 in Hrun1. rewrite E2 in Hrun2.
    injection Hrun1 as <-. injection Hrun2 as <-. exact Hsame.
Defined.
